(** * Hospital mortality risk predictor: the dashboard's prediction path

    A shallow embedding of [mortality_dashboard_v2.py]: the feature-row
    builder [preprocess] and the callback [make_prediction], together with
    the small part of Python, pandas and numpy they rely on.

    - Python values are an inductive type; [int] is unbounded, so it is [Z];
      [float] is an IEEE 754 binary64 value ([spec_float] at precision 53);
      [str] is the string of its UTF-8 bytes.
    - A [dict] keeps insertion order and holds a key once: an association
      list whose [dict_setitem] overwrites in place or appends.
    - A call that may raise returns a [result]; [try ... except Exception]
      is [try_except_Exception], which lets through what is not an instance
      of [Exception]; the handler formats the exception with [str(e)],
      which may raise in its turn.
    - The fitted pipeline behind the global [model] is outside the
      repository: it is an interface ([Pipeline]) over an opaque object
      state, whose [predict_proba] returns the state it leaves behind;
      the handler is a computation in the state-and-exception monad [Py]. *)

From Stdlib Require Import List String Ascii ZArith Bool Lia.
From Stdlib Require Import DecimalString Floats.SpecFloat.
Import ListNotations.
Open Scope string_scope.

(** ** Python values and exceptions *)

#[warnings="-register-all"]
Inductive PyVal : Type :=
| PyNone
| PyBool (b : bool)
| PyInt (n : Z)
| PyFloat (x : spec_float)
| PyStr (s : string)
| PyList (items : list PyVal)
| PyDict (items : list (string * PyVal)).

(** A raised exception: its class name, whether that class derives from
    [Exception] (KeyboardInterrupt, SystemExit and GeneratorExit derive from
    [BaseException] only), and what [str(e)] does: it gives the message,
    or the [__str__] of the class raises an exception of its own. *)
#[warnings="-register-all"]
Inductive PyExc : Type := mkExc {
  exc_type : string;
  exc_is_Exception : bool;
  exc_str : string + PyExc
}.

Inductive result (A : Type) : Type :=
| Ok (a : A)
| Raise (e : PyExc).
Arguments Ok {A} a.
Arguments Raise {A} e.

(** A Python computation over the state [S] of the objects it can reach: it
    returns or raises, and leaves a state behind. *)
Definition Py (S A : Type) : Type := S -> result A * S.

Definition ret {S A : Type} (a : A) : Py S A := fun s => (Ok a, s).

Definition bind {S A B : Type} (c : Py S A) (k : A -> Py S B) : Py S B :=
  fun s =>
    match c s with
    | (Ok a, s') => k a s'
    | (Raise e, s') => (Raise e, s')
    end.

Definition lift {S A : Type} (r : result A) : Py S A := fun s => (r, s).

Notation "x <- c ;; k" := (bind c (fun x => k))
  (at level 61, c at next level, right associativity).

(** [try: body  except Exception as e: handler e].  An exception that is not
    an instance of [Exception] is not caught. *)
Definition try_except_Exception {S A : Type}
    (body : Py S A) (handler : PyExc -> Py S A) : Py S A :=
  fun s =>
    match body s with
    | (Ok a, s') => (Ok a, s')
    | (Raise e, s') =>
        if exc_is_Exception e then handler e s' else (Raise e, s')
    end.

(** [str(e)], as the f-string field [{e}] evaluates it. *)
Definition py_str {S : Type} (e : PyExc) : Py S string :=
  fun s =>
    match exc_str e with
    | inl msg => (Ok msg, s)
    | inr e' => (Raise e', s)
    end.

Definition IndexError (msg : string) : PyExc :=
  mkExc "IndexError" true (inl msg).

(** ** dict: insertion-ordered, one entry per key *)

Definition dict : Type := list (string * PyVal).

Definition dict_keys (d : dict) : list string := map fst d.

(** [k in d] *)
Fixpoint dict_contains (d : dict) (k : string) : bool :=
  match d with
  | [] => false
  | (k', _) :: d' => if String.eqb k' k then true else dict_contains d' k
  end.

(** [d.get(k)] *)
Fixpoint dict_get (d : dict) (k : string) : option PyVal :=
  match d with
  | [] => None
  | (k', v') :: d' => if String.eqb k' k then Some v' else dict_get d' k
  end.

(** [d[k] = v]: an existing key keeps its position, a new one goes last. *)
Fixpoint dict_setitem (d : dict) (k : string) (v : PyVal) : dict :=
  match d with
  | [] => [(k, v)]
  | (k', v') :: d' =>
      if String.eqb k' k then (k', v) :: d'
      else (k', v') :: dict_setitem d' k v
  end.

(** [{k: f(k) for k in ks}] *)
Definition dict_comprehension (f : string -> PyVal) (ks : list string) : dict :=
  fold_left (fun d k => dict_setitem d k (f k)) ks [].

(** ** Ordered, duplicate-free name lists *)

Definition mem (k : string) (ks : list string) : bool :=
  existsb (String.eqb k) ks.

Definition add_key (ks : list string) (k : string) : list string :=
  if mem k ks then ks else ks ++ [k].

(** The distinct names of a list, each at the place of its first occurrence. *)
Fixpoint ordered_unique (l : list string) : list string :=
  match l with
  | [] => []
  | x :: l' => x :: filter (fun y => negb (String.eqb y x)) (ordered_unique l')
  end.

(** Position of the first occurrence of a name. *)
Fixpoint index_of (k : string) (ks : list string) : option nat :=
  match ks with
  | [] => None
  | k' :: ks' =>
      if String.eqb k' k then Some 0%nat
      else option_map S (index_of k ks')
  end.

(** ** pandas: a table built from a list of records *)

Record DataFrame : Type := mkDataFrame {
  columns : list string;
  rows : list (list PyVal)
}.

Definition NaN : PyVal := PyFloat S754_nan.

(** [pd.DataFrame(records)] for a list of dicts: the columns are the keys in
    the order they are first seen, one row per record, a missing cell is
    NaN. *)
Definition pd_DataFrame (records : list dict) : DataFrame :=
  let cols :=
    fold_left (fun acc r => fold_left add_key (dict_keys r) acc) records [] in
  mkDataFrame cols
    (map (fun r =>
            map (fun c => match dict_get r c with
                          | Some v => v
                          | None => NaN
                          end) cols)
         records).

(** [df.at[i, c]] *)
Definition df_at (df : DataFrame) (i : nat) (c : string) : option PyVal :=
  match index_of c (columns df), nth_error (rows df) i with
  | Some j, Some row => nth_error row j
  | _, _ => None
  end.

(** ** numpy: a two-dimensional array of floats *)

Definition ndarray : Type := list (list spec_float).

Definition repr_nat (n : nat) : string :=
  NilZero.string_of_uint (Nat.to_uint n).

Definition out_of_bounds_message (index axis size : nat) : string :=
  "index " ++ repr_nat index ++ " is out of bounds for axis "
  ++ repr_nat axis ++ " with size " ++ repr_nat size.

Definition out_of_bounds (index axis size : nat) : PyExc :=
  IndexError (out_of_bounds_message index axis size).

(** [a[i, j]] for non-negative [i] and [j]: the axes are checked in order. *)
Definition ndarray_getitem (a : ndarray) (i j : nat) : result spec_float :=
  match nth_error a i with
  | None => Raise (out_of_bounds i 0 (List.length a))
  | Some row =>
      match nth_error row j with
      | None => Raise (out_of_bounds j 1 (List.length row))
      | Some x => Ok x
      end
  end.

(** ** float formatting: the format specs [.Nf] and [.N%] *)

(** Multiplication of binary64 numbers, rounded to nearest, ties to even.
    The operands are numbers a Python float can hold, in the normalized
    form [binary64_of_Z] produces. *)
Definition binary64_mul : spec_float -> spec_float -> spec_float :=
  SFmul 53 1024.

Definition binary64_of_Z (n : Z) : spec_float :=
  binary_normalize 53 1024 n 0 false.

(** [num / den] rounded to the nearest integer, a tie going to the even
    one, for [0 <= num] and [0 < den]. *)
Definition div_round_half_even (num den : Z) : Z :=
  let q := (num / den)%Z in
  match (2 * (num mod den) ?= den)%Z with
  | Lt => q
  | Eq => if Z.even q then q else (q + 1)%Z
  | Gt => (q + 1)%Z
  end.

(** The integer nearest to [m * 2^e * 10^precision]. *)
Definition scaled_round (precision : nat) (m : positive) (e : Z) : Z :=
  let num := (Zpos m * 10 ^ Z.of_nat precision)%Z in
  if (0 <=? e)%Z then (num * 2 ^ e)%Z
  else div_round_half_even num (2 ^ (- e)).

Definition digit_char (d : Z) : ascii :=
  ascii_of_nat (48 + Z.to_nat d).

(** The [p] lowest decimal digits of [n], zero-padded. *)
Fixpoint digits_fixed (p : nat) (n : Z) : string :=
  match p with
  | O => ""
  | S p' => digits_fixed p' (n / 10) ++ String (digit_char (n mod 10)) ""
  end.

Definition repr_N (n : Z) : string :=
  NilZero.string_of_uint (N.to_uint (Z.to_N n)).

(** [n / 10^precision] written with [precision] decimals. *)
Definition fixed_point (precision : nat) (n : Z) : string :=
  let scale := (10 ^ Z.of_nat precision)%Z in
  repr_N (n / scale) ++
  match precision with
  | O => ""
  | S _ => "." ++ digits_fixed precision (n mod scale)
  end.

Definition sign_str (s : bool) : string := if s then "-" else "".

(** [format(x, ".Nf")]: the exact value of [x], correctly rounded. *)
Definition format_f (precision : nat) (x : spec_float) : string :=
  match x with
  | S754_nan => "nan"
  | S754_infinity s => sign_str s ++ "inf"
  | S754_zero s => sign_str s ++ fixed_point precision 0
  | S754_finite s m e =>
      sign_str s ++ fixed_point precision (scaled_round precision m e)
  end.

(** [format(x, ".N%")]: [x * 100] in fixed notation, then a percent sign. *)
Definition format_percent (precision : nat) (x : spec_float) : string :=
  format_f precision (binary64_mul x (binary64_of_Z 100)) ++ "%".

(** ** The fitted pipeline (external) *)

(** What the dashboard uses of the object unpickled into [model]:
    [named_steps[name].feature_names_in_], the names seen during fit, in fit
    order, and [predict_proba], one row of class probabilities per input
    row.  Either may raise.  [predict_proba] is a method call on a mutable
    object: it also returns the object's state after the call. *)
Class Pipeline (P : Type) : Type := {
  step_feature_names_in_ : P -> string -> result (list string);
  predict_proba : P -> DataFrame -> result ndarray * P
}.

(** ** Layout: the three input widgets *)

Record NumberInput : Type := mkNumberInput {
  input_id : string;
  input_min : Z;
  input_max : Z;
  input_step : Z;
  input_value : Z
}.

Record Dropdown : Type := mkDropdown {
  dropdown_id : string;
  dropdown_options : list (string * string);
  dropdown_value : string;
  dropdown_clearable : bool
}.

Definition age_input : NumberInput :=
  mkNumberInput "age" 0 120 1 60.

Definition gender_dropdown : Dropdown :=
  mkDropdown "gender" [("Male", "MALE"); ("Female", "FEMALE")] "MALE" false.

Definition rural_dropdown : Dropdown :=
  mkDropdown "rural" [("Yes", "YES"); ("No", "NO")] "NO" false.

(** A value the number input lets through: an integer within its bounds. *)
Definition number_input_accepts (w : NumberInput) (v : PyVal) : Prop :=
  exists n : Z, v = PyInt n /\ (input_min w <= n <= input_max w)%Z.

(** A value the dropdown offers. *)
Definition dropdown_offers (w : Dropdown) (v : PyVal) : Prop :=
  exists s : string, v = PyStr s /\ In s (map snd (dropdown_options w)).

(** A request the form can produce. *)
Definition valid_request (age gender rural : PyVal) : Prop :=
  number_input_accepts age_input age /\
  dropdown_offers gender_dropdown gender /\
  dropdown_offers rural_dropdown rural.

(** ** Dynamic preprocessing and the callback *)

Definition ADMISSION : string := "TYPE_OF_ADMISSION-EMERGENCY/OPD".

Section Dashboard.

Context {P : Type} `{Pipeline P}.

(** [list(model.named_steps["pre"].feature_names_in_)] *)
Definition expected_columns : Py P (list string) :=
  fun model => (step_feature_names_in_ model "pre", model).

(** [preprocess(age, gender, rural)] *)
Definition preprocess (age gender rural : PyVal) : Py P DataFrame :=
  expected_cols <- expected_columns ;;
  let base := dict_comprehension (fun _ => PyInt 0) expected_cols in
  let base :=
    if dict_contains base "GENDER"
    then dict_setitem base "GENDER" gender else base in
  let base :=
    if dict_contains base "RURAL"
    then dict_setitem base "RURAL" rural else base in
  let base :=
    if dict_contains base ADMISSION
    then dict_setitem base ADMISSION (PyStr "EMERGENCY") else base in
  let base :=
    if dict_contains base "AGE"
    then dict_setitem base "AGE" age else base in
  ret (pd_DataFrame [base]).

(** [model.predict_proba(df)[0, 1]] *)
Definition positive_class_proba (df : DataFrame) : Py P spec_float :=
  probas <- (fun model => predict_proba model df) ;;
  lift (ndarray_getitem probas 0 1).

(** [make_prediction(n_clicks, age, gender, rural)] *)
Definition make_prediction (n_clicks age gender rural : PyVal)
  : Py P string :=
  try_except_Exception
    (df <- preprocess age gender rural ;;
     proba <- positive_class_proba df ;;
     ret ("Predicted mortality risk: " ++ format_percent 2 proba))
    (fun e => msg <- py_str e ;; ret ("⚠️ Error: " ++ msg)).

(** A session: the callback run once per click, in order, each call
    starting in the state the previous one left.  It yields what each
    call returned or let through, and the final state. *)
Fixpoint run_session (clicks : list (PyVal * PyVal * PyVal * PyVal))
    (model : P) : list (result string) * P :=
  match clicks with
  | [] => ([], model)
  | (n_clicks, age, gender, rural) :: rest =>
      let (out, model') := make_prediction n_clicks age gender rural model in
      let (outs, model'') := run_session rest model' in
      (out :: outs, model'')
  end.

End Dashboard.

(** ** Example pipelines *)

(** A fitted pipeline that is never written to: its feature names and its
    probability function are fixed, and [predict_proba] leaves it as it
    is. *)
Record Fitted : Type := mkFitted {
  fitted_names : result (list string);
  fitted_proba : DataFrame -> result ndarray
}.

Definition KeyError (key : string) : PyExc :=
  mkExc "KeyError" true (inl ("'" ++ key ++ "'")).

#[export] Instance Fitted_Pipeline : Pipeline Fitted := {|
  step_feature_names_in_ := fun m name =>
    if String.eqb name "pre" then fitted_names m else Raise (KeyError name);
  predict_proba := fun m df => (fitted_proba m df, m)
|}.

(** binary64 constants: 0.25 and 0.75. *)
Definition quarter : spec_float := S754_finite false 4503599627370496 (-54).
Definition three_quarters : spec_float :=
  S754_finite false 6755399441055744 (-53).

Definition hospital_columns : list string :=
  ["AGE"; "GENDER"; "RURAL"; ADMISSION; "SMOKING"; "DM"; "HTN"].

(** A pipeline fit on [hospital_columns] that answers 25% for every row. *)
Definition hospital_model : Fitted :=
  mkFitted (Ok hospital_columns)
           (fun df => Ok (map (fun _ => [three_quarters; quarter]) (rows df))).

(** A pipeline whose inference is interrupted: [predict_proba] raises
    KeyboardInterrupt, which derives from [BaseException] only. *)
Definition KeyboardInterrupt : PyExc :=
  mkExc "KeyboardInterrupt" false (inl "").

Definition interrupted_model : Fitted :=
  mkFitted (Ok hospital_columns) (fun _ => Raise KeyboardInterrupt).

(** An exception whose [__str__] raises, and a pipeline whose inference
    raises it. *)
Definition RuntimeError (msg : string) : PyExc :=
  mkExc "RuntimeError" true (inl msg).

Definition Unprintable : PyExc :=
  mkExc "Unprintable" true (inr (RuntimeError "no message")).

Definition unprintable_model : Fitted :=
  mkFitted (Ok hospital_columns) (fun _ => Raise Unprintable).


(** A pipeline whose inference fails on every row with a ValueError. *)
Definition ValueError (msg : string) : PyExc :=
  mkExc "ValueError" true (inl msg).

Definition failing_model : Fitted :=
  mkFitted (Ok hospital_columns)
           (fun _ => Raise (ValueError "could not convert string to float")).

(** A pipeline fit on a table in which a column name occurs twice. *)
Definition repeated_columns : list string := ["AGE"; "GENDER"; "AGE"].

Definition repeated_model : Fitted :=
  mkFitted (Ok repeated_columns)
           (fun df => Ok (map (fun _ => [three_quarters; quarter]) (rows df))).

(** A pipeline that is written to by inference: it counts its calls, and
    its answer depends on the count. *)
Record Counting : Type := mkCounting { calls : nat }.

#[export] Instance Counting_Pipeline : Pipeline Counting := {|
  step_feature_names_in_ := fun _ name =>
    if String.eqb name "pre" then Ok hospital_columns
    else Raise (KeyError name);
  predict_proba := fun m df =>
    (Ok (map (fun _ => match calls m with
                       | O => [three_quarters; quarter]
                       | S _ => [quarter; three_quarters]
                       end) (rows df)),
     mkCounting (S (calls m)))
|}.

(** ** Class probabilities *)

(** [0 <= x <= 1], decided on the exact value of [x]. *)
Definition in_unit_interval (x : spec_float) : bool :=
  match x with
  | S754_zero _ => true
  | S754_finite false m e =>
      if (0 <=? e)%Z then (Zpos m * 2 ^ e <=? 1)%Z
      else (Zpos m <=? 2 ^ (- e))%Z
  | _ => false
  end.

(** What [predict_proba] promises for [n_samples] rows and two classes:
    one row of two probabilities per input row. *)
Definition valid_proba (n_samples : nat) (probas : ndarray) : Prop :=
  List.length probas = n_samples /\
  Forall (fun row => List.length row = 2%nat /\
                     Forall (fun x => in_unit_interval x = true) row) probas.

(** ** Shape of a rendered percentage *)




Definition is_finite (x : spec_float) : bool :=
  match x with
  | S754_zero _ | S754_finite _ _ _ => true
  | _ => false
  end.

(** ** Layout: the component tree and the callback's wiring *)

(** The components the layout is made of, each with the arguments the
    source gives it.  A single child is a list of one. *)
#[warnings="-register-all"]
Inductive Component : Type :=
| dbc_Container (children : list Component) (fluid : bool)
| dbc_Row (children : list Component) (className : option string)
| dbc_Col (children : list Component) (width : Z)
| dbc_Label (children : string) (className : string)
| html_H2 (children : string) (className : string)
| html_H4 (children : string)
| html_Div (id : string) (className : string)
| dbc_Input (w : NumberInput)
| dcc_Dropdown (w : Dropdown)
| dbc_Button (children : string) (id : string) (color : string)
    (className : string) (n_clicks : Z).

(** [input_row(label_text, component)] *)
Definition input_row (label_text : string) (component : Component)
  : Component :=
  dbc_Row
    [dbc_Col [dbc_Label label_text "fw-bold"] 4;
     dbc_Col [component] 8]
    (Some "mb-2").

(** [app.layout] *)
Definition layout : Component :=
  dbc_Container
    [html_H2 "Hospital Mortality Risk Predictor" "text-center my-4";
     dbc_Row
       [dbc_Col
          [input_row "Age" (dbc_Input age_input);
           input_row "Gender" (dcc_Dropdown gender_dropdown);
           input_row "Rural" (dcc_Dropdown rural_dropdown);
           dbc_Button "Predict" "predict-btn" "primary" "mt-3" 0]
          4;
        dbc_Col
          [html_H4 "Prediction";
           html_Div "prediction-output" "lead"]
          8]
       None]
    true.

(** The [id] a component was given, if any. *)
Definition own_id (c : Component) : option string :=
  match c with
  | html_Div id _ => Some id
  | dbc_Input w => Some (input_id w)
  | dcc_Dropdown w => Some (dropdown_id w)
  | dbc_Button _ id _ _ _ => Some id
  | _ => None
  end.

(** The components of a tree that carry the id [i], in document order. *)
Fixpoint components_with_id (i : string) (c : Component) : list Component :=
  let here :=
    match own_id c with
    | Some j => if String.eqb j i then [c] else []
    | None => []
    end in
  let below :=
    match c with
    | dbc_Container children _ => flat_map (components_with_id i) children
    | dbc_Row children _ => flat_map (components_with_id i) children
    | dbc_Col children _ => flat_map (components_with_id i) children
    | _ => []
    end in
  (here ++ below)%list.

(** All the ids of a tree, in document order. *)
Fixpoint component_ids (c : Component) : list string :=
  let here := match own_id c with Some j => [j] | None => [] end in
  let below :=
    match c with
    | dbc_Container children _ => flat_map component_ids children
    | dbc_Row children _ => flat_map component_ids children
    | dbc_Col children _ => flat_map component_ids children
    | _ => []
    end in
  (here ++ below)%list.

(** [Output(id, property)], [Input(id, property)], [State(id, property)] *)
Record Dependency : Type := mkDependency {
  component_id : string;
  component_property : string
}.

(** The arguments of [@app.callback]. *)
Record Callback : Type := mkCallback {
  callback_output : Dependency;
  callback_inputs : list Dependency;
  callback_state : list Dependency;
  prevent_initial_call : bool
}.

Definition make_prediction_callback : Callback :=
  mkCallback
    (mkDependency "prediction-output" "children")
    [mkDependency "predict-btn" "n_clicks"]
    [mkDependency "age" "value";
     mkDependency "gender" "value";
     mkDependency "rural" "value"]
    true.

Definition callback_dependencies (cb : Callback) : list Dependency :=
  (callback_output cb :: callback_inputs cb ++ callback_state cb)%list.

(** ** More example pipelines *)

(** A pipeline fit on a table without AGE and RURAL. *)
Definition gender_only_model : Fitted :=
  mkFitted (Ok ["GENDER"; "DM"])
           (fun df => Ok (map (fun _ => [three_quarters; quarter]) (rows df))).

(** [repeated_model] with each name once. *)
Definition deduplicated_model : Fitted :=
  mkFitted (Ok ["AGE"; "GENDER"])
           (fun df => Ok (map (fun _ => [three_quarters; quarter]) (rows df))).

(** binary64 1.0, and a classifier that knows one class only: its answer
    has a single column. *)
Definition one : spec_float := S754_finite false 4503599627370496 (-52).

Definition one_class_model : Fitted :=
  mkFitted (Ok hospital_columns)
           (fun df => Ok (map (fun _ => [one]) (rows df))).

(** The table of the request 60, MALE, NO on the hospital columns. *)
Definition hospital_row : DataFrame :=
  mkDataFrame
    hospital_columns
    [[PyInt 60; PyStr "MALE"; PyStr "NO"; PyStr "EMERGENCY";
      PyInt 0; PyInt 0; PyInt 0]].

(** ** What a percentage with two decimals must show *)

(** [n] is the number of hundredths nearest to [m * 2^e * 100], and the
    even one of the two when they are equally near. *)
Definition nearest_hundredths (m : positive) (e n : Z) : Prop :=
  let num := (Z.pos m * 100 * 2 ^ Z.max 0 e)%Z in
  let den := (2 ^ Z.max 0 (- e))%Z in
  (- den <= 2 * (n * den - num) <= den)%Z /\
  (Z.abs (2 * (n * den - num)) = den -> Z.even n = true).



(** ** Shifted mantissas *)

(** A shift record whose round and sticky bits are clear: the bits shifted
    out so far were all zero. *)
Definition exact_record (r : shr_record) : Prop :=
  shr_r r = false /\ shr_s r = false.

(** * Facts *)

(** ** Name lists *)

Section NameLists.

Lemma mem_In (k : string) (ks : list string) :
  mem k ks = true <-> In k ks.
Proof.
  unfold mem. rewrite existsb_exists. split.
  - intros (x & Hx & E). apply String.eqb_eq in E. now subst.
  - intros Hk. exists k. split; [exact Hk | apply String.eqb_refl].
Qed.

Lemma mem_app (k : string) (xs ys : list string) :
  mem k (xs ++ ys)%list = mem k xs || mem k ys.
Proof. unfold mem. apply existsb_app. Qed.

Lemma In_add_key (ks : list string) (k c : string) :
  In c (add_key ks k) <-> In c ks \/ c = k.
Proof.
  unfold add_key. destruct (mem k ks) eqn:E.
  - apply mem_In in E. split; [tauto | intros [Hc | ->]; assumption].
  - rewrite in_app_iff. simpl. intuition congruence.
Qed.

Lemma filter_filter_comm (p q : string -> bool) (l : list string) :
  filter p (filter q l) = filter q (filter p l).
Proof.
  induction l as [| y l IH]; simpl; [reflexivity |].
  destruct (q y) eqn:Q, (p y) eqn:Pp; simpl;
    rewrite ?Q, ?Pp, IH; reflexivity.
Qed.

(** Filtering out a name that [p] rejects anyway changes nothing under
    [filter p]. *)
Lemma filter_drop_rejected (p : string -> bool) (x : string)
    (l : list string) :
  p x = false ->
  filter p (filter (fun y => negb (String.eqb y x)) l) = filter p l.
Proof.
  intros Hx. induction l as [| y l IH]; simpl; [reflexivity |].
  destruct (String.eqb y x) eqn:E; simpl.
  - apply String.eqb_eq in E. subst y. rewrite Hx. exact IH.
  - destruct (p y); [f_equal |]; exact IH.
Qed.

Lemma ordered_unique_filter (p : string -> bool) (l : list string) :
  ordered_unique (filter p l) = filter p (ordered_unique l).
Proof.
  induction l as [| x l IH]; simpl; [reflexivity |].
  destruct (p x) eqn:Px; simpl.
  - rewrite ?Px, IH. f_equal. apply filter_filter_comm.
  - rewrite ?Px, IH. symmetry. now apply filter_drop_rejected.
Qed.

Lemma In_ordered_unique (l : list string) (c : string) :
  In c (ordered_unique l) <-> In c l.
Proof.
  induction l as [| x l IH]; simpl; [tauto |].
  rewrite filter_In, IH, negb_true_iff, String.eqb_neq.
  destruct (string_dec x c) as [-> | N]; [tauto |].
  split; [tauto |]. intros [E | Hc]; [contradiction |].
  right. split; [exact Hc | congruence].
Qed.

Lemma NoDup_filter (p : string -> bool) (l : list string) :
  NoDup l -> NoDup (filter p l).
Proof.
  induction 1 as [| x l Hx _ IH]; simpl; [constructor |].
  destruct (p x); [| exact IH].
  constructor; [| exact IH]. rewrite filter_In. tauto.
Qed.

Lemma NoDup_ordered_unique (l : list string) : NoDup (ordered_unique l).
Proof.
  induction l as [| x l IH]; simpl; constructor.
  - rewrite filter_In, String.eqb_refl. simpl. intros [_ F]. discriminate.
  - now apply NoDup_filter.
Qed.

Lemma filter_all (p : string -> bool) (l : list string) :
  (forall y, In y l -> p y = true) -> filter p l = l.
Proof.
  induction l as [| y l IH]; simpl; intros Hall; [reflexivity |].
  rewrite (Hall y (or_introl eq_refl)). f_equal. apply IH.
  intros z Hz. apply Hall. now right.
Qed.

Lemma ordered_unique_NoDup (l : list string) :
  NoDup l -> ordered_unique l = l.
Proof.
  induction 1 as [| x l Hx _ IH]; simpl; [reflexivity |].
  rewrite IH. f_equal. apply filter_all.
  intros y Hy. rewrite negb_true_iff, String.eqb_neq. congruence.
Qed.

(** Adding the names of [ks] one by one to [acc] appends the distinct
    names of [ks] that [acc] lacks, in order of first occurrence. *)
Lemma fold_add_key (ks acc : list string) :
  fold_left add_key ks acc =
  (acc ++ ordered_unique (filter (fun c => negb (mem c acc)) ks))%list.
Proof.
  revert acc. induction ks as [| x ks IH]; intros acc; simpl.
  - now rewrite app_nil_r.
  - rewrite IH. unfold add_key. destruct (mem x acc) eqn:E; simpl.
    + reflexivity.
    + rewrite <- app_assoc. simpl. f_equal. f_equal.
      rewrite <- ordered_unique_filter. f_equal.
      rewrite filter_filter_comm.
      transitivity
        (filter (fun c => negb (mem c acc) && negb (String.eqb c x)) ks).
      * apply filter_ext. intros c. rewrite mem_app. simpl.
        rewrite orb_false_r, negb_orb. reflexivity.
      * clear. induction ks as [| y ks IH]; simpl; [reflexivity |].
        destruct (negb (mem y acc)) eqn:A, (negb (String.eqb y x)) eqn:B;
          simpl; rewrite ?A, IH; reflexivity.
Qed.

Lemma fold_add_key_nil (ks : list string) :
  fold_left add_key ks [] = ordered_unique ks.
Proof.
  rewrite fold_add_key. simpl. f_equal. apply filter_all. reflexivity.
Qed.

Lemma index_of_In (k : string) (ks : list string) :
  In k ks -> exists j, index_of k ks = Some j.
Proof.
  induction ks as [| k' ks IH]; simpl; [tauto |].
  intros Hk. destruct (String.eqb k' k) eqn:E; [now exists 0%nat |].
  apply String.eqb_neq in E. destruct Hk as [-> | Hk]; [contradiction |].
  destruct (IH Hk) as [j ->]. now exists (S j).
Qed.

Lemma index_of_nth (A : Type) (f : string -> A) (k : string)
    (ks : list string) (j : nat) :
  index_of k ks = Some j -> nth_error (map f ks) j = Some (f k).
Proof.
  revert j. induction ks as [| k' ks IH]; simpl; intros j; [discriminate |].
  destruct (String.eqb k' k) eqn:E.
  - apply String.eqb_eq in E. subst. intros [= <-]. reflexivity.
  - destruct (index_of k ks) as [i |]; simpl; [| discriminate].
    intros [= <-]. simpl. now apply IH.
Qed.

End NameLists.

(** ** dict *)

Section DictFacts.

Lemma dict_contains_mem (d : dict) (k : string) :
  dict_contains d k = mem k (dict_keys d).
Proof.
  induction d as [| [k' v'] d IH]; simpl; [reflexivity |].
  rewrite (String.eqb_sym k k'), IH. now destruct (String.eqb k' k).
Qed.

Lemma dict_contains_In (d : dict) (k : string) :
  dict_contains d k = true <-> In k (dict_keys d).
Proof. rewrite dict_contains_mem. apply mem_In. Qed.

Lemma dict_keys_setitem (d : dict) (k : string) (v : PyVal) :
  dict_keys (dict_setitem d k v) = add_key (dict_keys d) k.
Proof.
  unfold add_key. rewrite <- dict_contains_mem.
  induction d as [| [k' v'] d IH]; simpl; [reflexivity |].
  destruct (String.eqb k' k) eqn:E; simpl; [reflexivity |].
  rewrite IH. now destruct (dict_contains d k).
Qed.

Lemma dict_get_setitem (d : dict) (k c : string) (v : PyVal) :
  dict_get (dict_setitem d k v) c =
  if String.eqb k c then Some v else dict_get d c.
Proof.
  induction d as [| [k' v'] d IH]; simpl.
  - reflexivity.
  - destruct (String.eqb k' k) eqn:E; simpl.
    + apply String.eqb_eq in E. subst k'. now destruct (String.eqb k c).
    + rewrite IH. destruct (String.eqb k' c) eqn:E'; [| reflexivity].
      apply String.eqb_eq in E'. subst k'.
      rewrite String.eqb_sym, E. reflexivity.
Qed.

Lemma dict_get_contains (d : dict) (c : string) :
  dict_contains d c = true -> exists v, dict_get d c = Some v.
Proof.
  induction d as [| [k' v'] d IH]; simpl; [discriminate |].
  destruct (String.eqb k' c); [now exists v' | exact IH].
Qed.

Lemma dict_get_In (d : dict) (c : string) (v : PyVal) :
  dict_get d c = Some v -> In c (dict_keys d).
Proof.
  induction d as [| [k' v'] d IH]; simpl; [discriminate |].
  destruct (String.eqb k' c) eqn:E.
  - apply String.eqb_eq in E. now left.
  - intros Hg. right. now apply IH.
Qed.

(** [if k in d: d[k] = v] keeps the keys and their order. *)
Lemma dict_keys_guarded_set (d : dict) (k : string) (v : PyVal) :
  dict_keys (if dict_contains d k then dict_setitem d k v else d) =
  dict_keys d.
Proof.
  destruct (dict_contains d k) eqn:E; [| reflexivity].
  rewrite dict_keys_setitem. unfold add_key.
  now rewrite <- dict_contains_mem, E.
Qed.

Lemma dict_get_guarded_set (d : dict) (k c : string) (v : PyVal) :
  dict_contains d c = true ->
  dict_get (if dict_contains d k then dict_setitem d k v else d) c =
  if String.eqb k c then Some v else dict_get d c.
Proof.
  intros Hc. destruct (dict_contains d k) eqn:E.
  - apply dict_get_setitem.
  - destruct (String.eqb k c) eqn:E'; [| reflexivity].
    apply String.eqb_eq in E'. congruence.
Qed.

Lemma dict_contains_guarded_set (d : dict) (k c : string) (v : PyVal) :
  dict_contains (if dict_contains d k then dict_setitem d k v else d) c =
  dict_contains d c.
Proof.
  transitivity
    (mem c (dict_keys (if dict_contains d k then dict_setitem d k v
                       else d))).
  - apply dict_contains_mem.
  - rewrite dict_keys_guarded_set. symmetry. apply dict_contains_mem.
Qed.

Variable f : string -> PyVal.

Let step (d : dict) (k : string) : dict := dict_setitem d k (f k).

Lemma dict_keys_fold_setitem (ks : list string) (d : dict) :
  dict_keys (fold_left step ks d) = fold_left add_key ks (dict_keys d).
Proof.
  revert d. induction ks as [| k ks IH]; intros d; simpl; [reflexivity |].
  rewrite IH. unfold step. now rewrite dict_keys_setitem.
Qed.

Lemma dict_get_fold_setitem (ks : list string) (d : dict) (c : string) :
  dict_get (fold_left step ks d) c =
  if mem c ks then Some (f c) else dict_get d c.
Proof.
  revert d. induction ks as [| k ks IH]; intros d; simpl; [reflexivity |].
  rewrite IH. unfold step. rewrite dict_get_setitem.
  rewrite (String.eqb_sym c k).
  destruct (mem c ks) eqn:M; [now rewrite orb_true_r |].
  rewrite orb_false_r. destruct (String.eqb k c) eqn:E; [| reflexivity].
  apply String.eqb_eq in E. now subst.
Qed.

(** The keys of [{k: f(k) for k in ks}] are the distinct names of [ks]
    in order of first occurrence. *)
Lemma dict_keys_comprehension (ks : list string) :
  dict_keys (dict_comprehension f ks) = ordered_unique ks.
Proof.
  unfold dict_comprehension. fold step.
  rewrite dict_keys_fold_setitem. apply fold_add_key_nil.
Qed.

Lemma dict_get_comprehension (ks : list string) (c : string) :
  In c ks -> dict_get (dict_comprehension f ks) c = Some (f c).
Proof.
  intros Hc. unfold dict_comprehension. fold step.
  rewrite dict_get_fold_setitem.
  apply mem_In in Hc. now rewrite Hc.
Qed.

Lemma dict_contains_comprehension (ks : list string) (c : string) :
  dict_contains (dict_comprehension f ks) c = mem c ks.
Proof.
  rewrite dict_contains_mem, dict_keys_comprehension.
  destruct (mem c ks) eqn:M.
  - apply mem_In. apply In_ordered_unique. now apply mem_In.
  - destruct (mem c (ordered_unique ks)) eqn:M'; [| reflexivity].
    apply (proj1 (mem_In _ _)), (proj1 (In_ordered_unique _ _)),
      (proj2 (mem_In _ _)) in M'.
    congruence.
Qed.

End DictFacts.

(** ** pandas *)

Section DataFrameFacts.

Variable r : dict.
Hypothesis keys_distinct : NoDup (dict_keys r).

Lemma columns_single_record : columns (pd_DataFrame [r]) = dict_keys r.
Proof.
  unfold pd_DataFrame. simpl.
  rewrite fold_add_key_nil. now apply ordered_unique_NoDup.
Qed.

Lemma rows_single_record : List.length (rows (pd_DataFrame [r])) = 1%nat.
Proof. reflexivity. Qed.

Lemma df_at_single_record (c : string) (v : PyVal) :
  dict_get r c = Some v -> df_at (pd_DataFrame [r]) 0 c = Some v.
Proof.
  intros Hg. unfold df_at.
  destruct (index_of_In c (columns (pd_DataFrame [r]))) as [j Hj].
  { rewrite columns_single_record. eapply dict_get_In, Hg. }
  rewrite Hj. simpl.
  erewrite index_of_nth by exact Hj. now rewrite Hg.
Qed.

End DataFrameFacts.

(** ** preprocess *)

Section PreprocessFacts.

Context {P : Type} `{Pipeline P}.
Variables (model : P) (age gender rural : PyVal).

(** The dict [base] as it stands at the [return] of [preprocess]. *)
Let base_at_return (expected_cols : list string) : dict :=
  let base := dict_comprehension (fun _ => PyInt 0) expected_cols in
  let base :=
    if dict_contains base "GENDER"
    then dict_setitem base "GENDER" gender else base in
  let base :=
    if dict_contains base "RURAL"
    then dict_setitem base "RURAL" rural else base in
  let base :=
    if dict_contains base ADMISSION
    then dict_setitem base ADMISSION (PyStr "EMERGENCY") else base in
  if dict_contains base "AGE"
  then dict_setitem base "AGE" age else base.

Lemma preprocess_returns (cols : list string) :
  step_feature_names_in_ model "pre" = Ok cols ->
  preprocess age gender rural model =
  (Ok (pd_DataFrame [base_at_return cols]), model).
Proof.
  intros Hn. unfold preprocess, bind, expected_columns. now rewrite Hn.
Qed.

Lemma preprocess_raises (e : PyExc) :
  step_feature_names_in_ model "pre" = Raise e ->
  preprocess age gender rural model = (Raise e, model).
Proof.
  intros Hn. unfold preprocess, bind, expected_columns. now rewrite Hn.
Qed.

Lemma base_keys (cols : list string) :
  dict_keys (base_at_return cols) = ordered_unique cols.
Proof.
  unfold base_at_return. cbv zeta.
  rewrite !dict_keys_guarded_set. apply dict_keys_comprehension.
Qed.

Lemma base_get (cols : list string) (c : string) :
  In c cols ->
  dict_get (base_at_return cols) c =
  Some (if String.eqb "AGE" c then age
        else if String.eqb ADMISSION c then PyStr "EMERGENCY"
        else if String.eqb "RURAL" c then rural
        else if String.eqb "GENDER" c then gender
        else PyInt 0).
Proof.
  intros Hc. unfold base_at_return. cbv zeta.
  assert (Hin : dict_contains (dict_comprehension (fun _ => PyInt 0) cols) c
                = true).
  { rewrite dict_contains_comprehension. now apply mem_In. }
  rewrite !dict_get_guarded_set
    by (rewrite ?dict_contains_guarded_set; exact Hin).
  rewrite (dict_get_comprehension _ _ _ Hc).
  destruct (String.eqb "AGE" c), (String.eqb ADMISSION c),
    (String.eqb "RURAL" c), (String.eqb "GENDER" c); reflexivity.
Qed.

(** What [preprocess] returns once the pipeline has given its feature
    names: one row, the distinct names as columns in order of first
    occurrence, and in each cell the slot's value or 0. *)
Lemma preprocess_cells (cols : list string) :
  step_feature_names_in_ model "pre" = Ok cols ->
  exists df,
    preprocess age gender rural model = (Ok df, model) /\
    columns df = ordered_unique cols /\
    List.length (rows df) = 1%nat /\
    forall c, In c cols ->
      df_at df 0 c =
      Some (if String.eqb "AGE" c then age
            else if String.eqb ADMISSION c then PyStr "EMERGENCY"
            else if String.eqb "RURAL" c then rural
            else if String.eqb "GENDER" c then gender
            else PyInt 0).
Proof.
  intros Hn. exists (pd_DataFrame [base_at_return cols]).
  assert (Hnd : NoDup (dict_keys (base_at_return cols))).
  { rewrite base_keys. apply NoDup_ordered_unique. }
  split; [now apply preprocess_returns |].
  split; [now rewrite columns_single_record, base_keys |].
  split; [reflexivity |].
  intros c Hc. apply df_at_single_record; [exact Hnd |].
  now apply base_get.
Qed.

End PreprocessFacts.

(** * The feature-row builder *)

Section PreprocessClaims.

Context {P : Type} `{Pipeline P}.
Variables (model : P) (age gender rural : PyVal).

(** C1.  Whatever the request, once the fitted preprocessing stage has
    given its feature names, [preprocess] returns a table of one row
    whose columns are exactly those names: every expected column is a
    column of the row and holds a value there, no other column appears,
    none appears twice, and the row has one cell per column. *)
Theorem preprocess_key_set (cols : list string) :
  step_feature_names_in_ model "pre" = Ok cols ->
  exists df,
    preprocess age gender rural model = (Ok df, model) /\
    List.length (rows df) = 1%nat /\
    NoDup (columns df) /\
    (forall c, In c (columns df) <-> In c cols) /\
    (forall c, In c cols -> exists v, df_at df 0 c = Some v) /\
    (forall c, ~ In c cols -> df_at df 0 c = None) /\
    Forall (fun row => List.length row = List.length (columns df)) (rows df).
Proof.
  intros Hn.
  destruct (preprocess_cells model age gender rural cols Hn)
    as (df & Hrun & Hcols & Hrows & Hcell).
  exists df.
  split; [exact Hrun |]. split; [exact Hrows |].
  split; [rewrite Hcols; apply NoDup_ordered_unique |].
  split; [intros c; rewrite Hcols; apply In_ordered_unique |].
  split; [intros c Hc; eexists; apply (Hcell c Hc) |].
  split.
  - intros c Hc. unfold df_at.
    destruct (index_of c (columns df)) as [j |] eqn:Hj; [| reflexivity].
    exfalso. apply Hc. apply In_ordered_unique. rewrite <- Hcols.
    clear - Hj. revert j Hj.
    induction (columns df) as [| k ks IH]; simpl; intros j; [discriminate |].
    destruct (String.eqb_spec k c) as [-> | _]; [now left |].
    destruct (index_of c ks) as [i |]; [| discriminate].
    intros _. right. now apply (IH i).
  - unfold preprocess, bind, expected_columns, ret in Hrun.
    rewrite Hn in Hrun. injection Hrun as <-.
    unfold pd_DataFrame. cbn [rows columns map].
    constructor; [| constructor]. now rewrite length_map.
Qed.

(** C3.  When the admission-type column is among the expected columns,
    the row holds the string EMERGENCY there, whatever the age, gender
    and rural values are. *)
Theorem preprocess_admission_emergency (cols : list string) :
  step_feature_names_in_ model "pre" = Ok cols ->
  In ADMISSION cols ->
  exists df,
    preprocess age gender rural model = (Ok df, model) /\
    df_at df 0 ADMISSION = Some (PyStr "EMERGENCY").
Proof.
  intros Hn Hin.
  destruct (preprocess_cells model age gender rural cols Hn)
    as (df & Hrun & _ & _ & Hcell).
  exists df. split; [exact Hrun |].
  rewrite (Hcell _ Hin). reflexivity.
Qed.

(** C4.  Every expected column other than AGE, GENDER, RURAL and the
    admission-type column holds the integer 0. *)
Theorem preprocess_other_columns_zero (cols : list string) :
  step_feature_names_in_ model "pre" = Ok cols ->
  exists df,
    preprocess age gender rural model = (Ok df, model) /\
    forall c,
      In c cols ->
      c <> "AGE" -> c <> "GENDER" -> c <> "RURAL" -> c <> ADMISSION ->
      df_at df 0 c = Some (PyInt 0).
Proof.
  intros Hn.
  destruct (preprocess_cells model age gender rural cols Hn)
    as (df & Hrun & _ & _ & Hcell).
  exists df. split; [exact Hrun |].
  intros c Hc Na Ng Nr Nt. rewrite (Hcell _ Hc).
  destruct (String.eqb_spec "AGE" c); [congruence |].
  destruct (String.eqb_spec ADMISSION c); [congruence |].
  destruct (String.eqb_spec "RURAL" c); [congruence |].
  destruct (String.eqb_spec "GENDER" c); [congruence |].
  reflexivity.
Qed.

(** C9.  [preprocess] checks nothing about the age.  Whether it returns
    or raises is decided by the pipeline's feature names alone; when it
    returns, the AGE column (if expected) holds the age exactly as it
    was given, be it out of the widget's range or None.  The bounds 0
    and 120 are attributes of the age input of the layout, and values
    outside them, or None, are not what that input accepts. *)
Theorem preprocess_no_age_validation :
  match step_feature_names_in_ model "pre" with
  | Ok cols =>
      exists df,
        preprocess age gender rural model = (Ok df, model) /\
        (In "AGE" cols -> df_at df 0 "AGE" = Some age)
  | Raise e => preprocess age gender rural model = (Raise e, model)
  end /\
  input_min age_input = 0%Z /\ input_max age_input = 120%Z /\
  ~ number_input_accepts age_input (PyInt (-1)) /\
  ~ number_input_accepts age_input (PyInt 121) /\
  ~ number_input_accepts age_input PyNone.
Proof.
  split.
  - destruct (step_feature_names_in_ model "pre") as [cols | e] eqn:Hn.
    + destruct (preprocess_cells model age gender rural cols Hn)
        as (df & Hrun & _ & _ & Hcell).
      exists df. split; [exact Hrun |].
      intros Hin. rewrite (Hcell _ Hin). reflexivity.
    + now apply preprocess_raises.
  - repeat split; try reflexivity;
      intros (n & E & Hlo & Hhi); try discriminate;
      injection E as <-; simpl in *; lia.
Qed.

(** C10, as amended.  The columns of the row are the distinct names of
    [feature_names_in_], each at the place of its first occurrence; when
    no name occurs twice in [feature_names_in_], the column list is that
    list itself, in fit order. *)
Theorem preprocess_columns_fit_order (cols : list string) :
  step_feature_names_in_ model "pre" = Ok cols ->
  exists df,
    preprocess age gender rural model = (Ok df, model) /\
    columns df = ordered_unique cols /\
    (NoDup cols -> columns df = cols).
Proof.
  intros Hn.
  destruct (preprocess_cells model age gender rural cols Hn)
    as (df & Hrun & Hcols & _).
  exists df. split; [exact Hrun |]. split; [exact Hcols |].
  intros Hnd. rewrite Hcols. now apply ordered_unique_NoDup.
Qed.

End PreprocessClaims.

(** C6.  For age 60, gender MALE and rural NO the row has AGE = 60,
    GENDER = MALE, RURAL = NO and the admission type EMERGENCY, each where
    the column is expected, and 0 in every other expected column. *)
Theorem preprocess_scenario_60_male_no
    {P : Type} `{Pipeline P} (model : P) (cols : list string) :
  step_feature_names_in_ model "pre" = Ok cols ->
  exists df,
    preprocess (PyInt 60) (PyStr "MALE") (PyStr "NO") model = (Ok df, model) /\
    (In "AGE" cols -> df_at df 0 "AGE" = Some (PyInt 60)) /\
    (In "GENDER" cols -> df_at df 0 "GENDER" = Some (PyStr "MALE")) /\
    (In "RURAL" cols -> df_at df 0 "RURAL" = Some (PyStr "NO")) /\
    (In ADMISSION cols -> df_at df 0 ADMISSION = Some (PyStr "EMERGENCY")) /\
    (forall c,
        In c cols ->
        c <> "AGE" -> c <> "GENDER" -> c <> "RURAL" -> c <> ADMISSION ->
        df_at df 0 c = Some (PyInt 0)).
Proof.
  intros Hn.
  destruct (preprocess_cells model (PyInt 60) (PyStr "MALE") (PyStr "NO")
              cols Hn) as (df & Hrun & _ & _ & Hcell).
  exists df. split; [exact Hrun |].
  repeat split; try (intros Hin; rewrite (Hcell _ Hin); reflexivity).
  intros c Hc Na Ng Nr Nt. rewrite (Hcell _ Hc).
  destruct (String.eqb_spec "AGE" c); [congruence |].
  destruct (String.eqb_spec ADMISSION c); [congruence |].
  destruct (String.eqb_spec "RURAL" c); [congruence |].
  destruct (String.eqb_spec "GENDER" c); [congruence |].
  reflexivity.
Qed.

(** ** Strings and rendered numbers *)

Section FormatFacts.

Lemma append_assoc (a b c : string) : (a ++ b) ++ c = a ++ (b ++ c).
Proof. induction a as [| x a IH]; simpl; [reflexivity | now rewrite IH]. Qed.

Lemma prefix_append (a b : string) : String.prefix a (a ++ b) = true.
Proof.
  induction a as [| x a IH]; simpl; [now destruct b |].
  destruct (ascii_dec x x) as [_ | N]; [exact IH | contradiction].
Qed.









(** What [.N%] gives for a number whose hundredfold is NaN or infinite. *)
Lemma format_percent_not_finite (p : nat) (x : spec_float) :
  is_finite (binary64_mul x (binary64_of_Z 100)) = false ->
  In (format_percent p x) ["nan%"; "inf%"; "-inf%"].
Proof.
  unfold format_percent.
  destruct (binary64_mul x (binary64_of_Z 100)) as [s | s | | s m e];
    try discriminate; intros _; simpl.
  - destruct s; simpl; auto.
  - auto.
Qed.

End FormatFacts.

(** ** Rounding to binary64 *)

Section Rounding.

Local Open Scope Z_scope.

Lemma digits2_pos_size (m : positive) : digits2_pos m = Pos.size m.
Proof. induction m as [m IH | m IH |]; simpl; now rewrite ?IH. Qed.

Lemma Zdigits2_bounds (m : positive) :
  2 ^ (Zdigits2 (Zpos m) - 1) <= Zpos m < 2 ^ Zdigits2 (Zpos m).
Proof.
  unfold Zdigits2. rewrite digits2_pos_size.
  assert (Hgt : Z.pos m < 2 ^ Z.pos (Pos.size m)).
  { change 2 with (Z.pos 2). rewrite <- Pos2Z.inj_pow.
    apply Pos2Z.pos_lt_pos, Pos.size_gt. }
  assert (Hle : 2 ^ Z.pos (Pos.size m) <= 2 * Z.pos m).
  { change 2 with (Z.pos 2). rewrite <- Pos2Z.inj_pow.
    apply (Pos2Z.pos_le_pos _ (m~0)), Pos.size_le. }
  replace (Z.pos (Pos.size m)) with (Z.succ (Z.pos (Pos.size m) - 1)) in Hle
    by lia.
  rewrite Z.pow_succ_r in Hle by lia.
  split; [lia | exact Hgt].
Qed.

Lemma Zdigits2_nonneg (m : Z) : 0 <= Zdigits2 m.
Proof. destruct m; simpl; lia. Qed.

(** A non-negative number below [2^k] has at most [k] binary digits. *)
Lemma Zdigits2_le (m k : Z) : 0 <= m -> 0 <= k -> m < 2 ^ k -> Zdigits2 m <= k.
Proof.
  intros Hm Hk Hlt. destruct m as [| p | p]; [simpl; lia | | lia].
  pose proof (Zdigits2_bounds p) as [Hlo _].
  pose proof (Zdigits2_nonneg (Z.pos p)).
  destruct (Z.le_gt_cases (Zdigits2 (Z.pos p)) k) as [|Hgt]; [assumption |].
  assert (2 ^ k <= 2 ^ (Zdigits2 (Z.pos p) - 1))
    by (apply Z.pow_le_mono_r; lia).
  lia.
Qed.

Lemma shr_1_digits (r : shr_record) :
  0 <= shr_m r ->
  0 <= shr_m (shr_1 r) /\
  Zdigits2 (shr_m (shr_1 r)) = Z.max 0 (Zdigits2 (shr_m r) - 1).
Proof.
  destruct r as [m b s]. cbn [shr_m]. intros Hm.
  destruct m as [| [p | p |] | p];
    cbn [shr_m shr_1 Zdigits2 digits2_pos];
    rewrite ?Pos2Z.inj_succ; lia.
Qed.

Lemma iter_shr_1_digits (p : positive) (r : shr_record) :
  0 <= shr_m r ->
  0 <= shr_m (iter_pos shr_1 p r) /\
  Zdigits2 (shr_m (iter_pos shr_1 p r)) =
  Z.max 0 (Zdigits2 (shr_m r) - Z.pos p).
Proof.
  revert r. induction p as [p IH | p IH |]; intros r Hr; simpl iter_pos.
  - destruct (shr_1_digits r Hr) as [H1 E1].
    destruct (IH _ H1) as [H2 E2]. destruct (IH _ H2) as [H3 E3].
    split; [exact H3 |]. rewrite E3, E2, E1. lia.
  - destruct (IH _ Hr) as [H2 E2]. destruct (IH _ H2) as [H3 E3].
    split; [exact H3 |]. rewrite E3, E2. lia.
  - destruct (shr_1_digits r Hr) as [H1 E1]. split; [exact H1 |].
    rewrite E1. lia.
Qed.

Lemma shr_fexp_spec (m e : Z) (l : location) :
  0 <= m ->
  let (r, e') := shr_fexp 53 1024 m e l in
  0 <= shr_m r /\
  ((e' = e /\ shr_m r = m /\ fexp 53 1024 (Zdigits2 m + e) <= e) \/
   (e' = fexp 53 1024 (Zdigits2 m + e) /\ e < e' /\
    Zdigits2 (shr_m r) = Z.max 0 (Zdigits2 m - (e' - e)))).
Proof.
  intros Hm. unfold shr_fexp, shr.
  assert (Hrec : shr_m (shr_record_of_loc m l) = m)
    by (destruct l as [| []]; reflexivity).
  destruct (fexp 53 1024 (Zdigits2 m + e) - e) as [| p | p] eqn:E.
  - split; [now rewrite Hrec |]. left. repeat split; [exact Hrec | lia].
  - destruct (iter_shr_1_digits p (shr_record_of_loc m l)) as [H1 E1];
      [now rewrite Hrec |].
    split; [exact H1 |]. right. rewrite E1, Hrec. lia.
  - split; [now rewrite Hrec |]. left. repeat split; [exact Hrec | lia].
Qed.

Lemma round_nearest_even_digits (m : Z) (l : location) :
  0 <= m ->
  0 <= round_nearest_even m l /\
  Zdigits2 (round_nearest_even m l) <= Zdigits2 m + 1.
Proof.
  intros Hm.
  assert (Hup : Zdigits2 (m + 1) <= Zdigits2 m + 1).
  { pose proof (Zdigits2_nonneg m).
    apply Zdigits2_le; [lia | lia |].
    rewrite Z.pow_add_r, Z.pow_1_r by lia.
    destruct m as [| p | p]; [simpl; lia | | lia].
    pose proof (Zdigits2_bounds p). lia. }
  unfold round_nearest_even.
  destruct l as [| []]; try destruct (Z.even m); split; lia.
Qed.


Lemma unit_interval_digits (m : positive) (e : Z) :
  in_unit_interval (S754_finite false m e) = true ->
  Zdigits2 (Z.pos m) + e <= 1.
Proof.
  cbn [in_unit_interval]. pose proof (Zdigits2_bounds m) as [Hlo _].
  pose proof (Zdigits2_nonneg (Z.pos m)) as Hd.
  destruct (0 <=? e) eqn:E; intros Hle; apply Z.leb_le in Hle.
  - apply Z.leb_le in E.
    assert (e = 0).
    { destruct (Z.eq_dec e 0) as [| N]; [assumption |].
      assert (2 ^ 1 <= 2 ^ e) by (apply Z.pow_le_mono_r; lia).
      rewrite Z.pow_1_r in *. nia. }
    subst e. rewrite Z.pow_0_r, Z.mul_1_r in Hle.
    assert (Hm1 : Z.pos m = 1) by lia.
    injection Hm1 as ->. reflexivity.
  - apply Z.leb_gt in E.
    destruct (Z.le_gt_cases (Zdigits2 (Z.pos m) + e) 1) as [| Hgt];
      [assumption |].
    assert (2 ^ (- e + 1) <= 2 ^ (Zdigits2 (Z.pos m) - 1))
      by (apply Z.pow_le_mono_r; lia).
    rewrite Z.pow_add_r, Z.pow_1_r in * by lia.
    assert (0 < 2 ^ (- e)) by (apply Z.pow_pos_nonneg; lia).
    lia.
Qed.


End Rounding.


(** ** make_prediction *)

Section PredictionFacts.

Context {P : Type} `{Pipeline P}.



(** [preprocess] only reads the pipeline. *)
Lemma preprocess_state (model : P) (age gender rural : PyVal) :
  snd (preprocess age gender rural model) = model.
Proof.
  unfold preprocess, bind, expected_columns.
  now destruct (step_feature_names_in_ model "pre").
Qed.

Lemma positive_class_proba_raises (model model' : P) (df : DataFrame)
    (e : PyExc) :
  predict_proba model df = (Raise e, model') ->
  positive_class_proba df model = (Raise e, model').
Proof.
  intros Hp. unfold positive_class_proba, bind. now rewrite Hp.
Qed.

Lemma positive_class_proba_indexes (model model' : P) (df : DataFrame)
    (probas : ndarray) :
  predict_proba model df = (Ok probas, model') ->
  positive_class_proba df model = (ndarray_getitem probas 0 1, model').
Proof.
  intros Hp. unfold positive_class_proba, bind, lift. now rewrite Hp.
Qed.

(** The callback, by what its [try] body did. *)
Lemma make_prediction_body_raises (model model' : P)
    (n_clicks age gender rural : PyVal) (e : PyExc) :
  (preprocess age gender rural model = (Raise e, model') \/
   exists df m,
     preprocess age gender rural model = (Ok df, m) /\
     positive_class_proba df m = (Raise e, model')) ->
  make_prediction n_clicks age gender rural model =
  if exc_is_Exception e
  then (match exc_str e with
        | inl msg => Ok ("⚠️ Error: " ++ msg)
        | inr e' => Raise e'
        end, model')
  else (Raise e, model').
Proof.
  unfold make_prediction, try_except_Exception, bind, py_str, ret.
  intros [Hp | (df & m & Hp & Hq)]; rewrite Hp; [| rewrite Hq];
    destruct (exc_is_Exception e); try reflexivity;
    now destruct (exc_str e).
Qed.

Lemma make_prediction_body_returns (model m model' : P)
    (n_clicks age gender rural : PyVal) (df : DataFrame) (p : spec_float) :
  preprocess age gender rural model = (Ok df, m) ->
  positive_class_proba df m = (Ok p, model') ->
  make_prediction n_clicks age gender rural model =
  (Ok ("Predicted mortality risk: " ++ format_percent 2 p), model').
Proof.
  intros Hp Hq. unfold make_prediction, try_except_Exception, bind.
  now rewrite Hp, Hq.
Qed.

(** [n_clicks] is not used. *)
Lemma make_prediction_ignores_n_clicks (model : P)
    (n_clicks n_clicks' age gender rural : PyVal) :
  make_prediction n_clicks age gender rural model =
  make_prediction n_clicks' age gender rural model.
Proof. reflexivity. Qed.

(** The state the callback leaves is the one [predict_proba] left, or the
    one it started in when [predict_proba] was not reached. *)
Lemma make_prediction_state (model : P) (n_clicks age gender rural : PyVal) :
  snd (make_prediction n_clicks age gender rural model) = model \/
  exists df, snd (make_prediction n_clicks age gender rural model) =
             snd (predict_proba model df).
Proof.
  pose proof (preprocess_state model age gender rural) as Hs.
  destruct (preprocess age gender rural model) as [[df | e] m] eqn:Hp;
    simpl in Hs; subst m.
  - right. exists df.
    destruct (predict_proba model df) as [[probas | e] m'] eqn:Hq.
    + pose proof (positive_class_proba_indexes _ _ _ _ Hq) as Hi.
      destruct (ndarray_getitem probas 0 1) as [p | e] eqn:Hg.
      * now rewrite (make_prediction_body_returns _ _ _ _ _ _ _ _ _ Hp Hi).
      * rewrite (make_prediction_body_raises model m' n_clicks age gender
                   rural e) by (right; now exists df, model).
        now destruct (exc_is_Exception e).
    + pose proof (positive_class_proba_raises _ _ _ _ Hq) as Hi.
      rewrite (make_prediction_body_raises model m' n_clicks age gender
                 rural e) by (right; now exists df, model).
      now destruct (exc_is_Exception e).
  - left.
    rewrite (make_prediction_body_raises model model n_clicks age gender
               rural e) by now left.
    now destruct (exc_is_Exception e).
Qed.


End PredictionFacts.

(** ** The rendering against its specification *)

Section RenderingSpec.

Local Open Scope Z_scope.



(** Two numbers of hundredths that are both nearest are the same. *)
Lemma nearest_hundredths_unique (m : positive) (e n n' : Z) :
  nearest_hundredths m e n -> nearest_hundredths m e n' -> n = n'.
Proof.
  unfold nearest_hundredths. cbv zeta.
  assert (Hd : 0 < 2 ^ Z.max 0 (- e)) by (apply Z.pow_pos_nonneg; lia).
  set (den := 2 ^ Z.max 0 (- e)) in *.
  set (num := Z.pos m * 100 * 2 ^ Z.max 0 e) in *.
  intros [[L1 U1] T1] [[L2 U2] T2].
  assert (Hnear : n' - 1 <= n <= n' + 1) by nia.
  destruct (Z.eq_dec n n') as [| Hne]; [assumption | exfalso].
  assert (Hcase : n = n' + 1 \/ n' = n + 1) by lia.
  destruct Hcase as [-> | ->].
  - assert (E1 : 2 * ((n' + 1) * den - num) = den) by nia.
    assert (E2 : 2 * (n' * den - num) = - den) by nia.
    rewrite E1 in T1. rewrite E2 in T2.
    specialize (T1 ltac:(lia)). specialize (T2 ltac:(lia)).
    rewrite Z.add_1_r, Z.even_succ, <- Z.negb_even, T2 in T1. discriminate.
  - assert (E1 : 2 * ((n + 1) * den - num) = den) by nia.
    assert (E2 : 2 * (n * den - num) = - den) by nia.
    rewrite E1 in T2. rewrite E2 in T1.
    specialize (T1 ltac:(lia)). specialize (T2 ltac:(lia)).
    rewrite Z.add_1_r, Z.even_succ, <- Z.negb_even, T1 in T2. discriminate.
Qed.



End RenderingSpec.

(** * The prediction callback *)

Section PredictionClaims.

Context {P : Type} `{Pipeline P}.

(** C2, as amended.  When preprocessing, the probability call or the
    selection of its entry raises an instance of [Exception] whose
    [str(e)] gives a message, [make_prediction] returns normally, and what
    it returns is the warning sign, [Error:] and that message.  An
    exception that is not an instance of [Exception] (KeyboardInterrupt,
    SystemExit, GeneratorExit) is not caught: it reaches the caller.  When
    [str(e)] itself raises, in the handler, what it raises reaches the
    caller. *)
Theorem make_prediction_catches_Exception (model model' : P)
    (n_clicks age gender rural : PyVal) (e : PyExc) :
  (preprocess age gender rural model = (Raise e, model') \/
   exists df m,
     preprocess age gender rural model = (Ok df, m) /\
     positive_class_proba df m = (Raise e, model')) ->
  match exc_is_Exception e, exc_str e with
  | true, inl msg =>
      exists s,
        make_prediction n_clicks age gender rural model = (Ok s, model') /\
        s = "⚠️ Error: " ++ msg /\
        String.prefix "⚠️ Error:" s = true
  | true, inr e' =>
      make_prediction n_clicks age gender rural model = (Raise e', model')
  | false, _ =>
      make_prediction n_clicks age gender rural model = (Raise e, model')
  end.
Proof.
  intros Hbody.
  rewrite (make_prediction_body_raises model model' n_clicks age gender
             rural e Hbody).
  destruct (exc_is_Exception e); [| reflexivity].
  destruct (exc_str e) as [msg | e']; [| reflexivity].
  eexists. split; [reflexivity |]. split; [reflexivity |].
  exact (prefix_append "⚠️ Error:" (" " ++ msg)).
Qed.

(** C5.  For a table of at least one row on which the pipeline answers
    with a valid distribution (one row of two probabilities per input
    row), the invoker returns the entry at row 0, column 1 of that answer,
    and it lies in the interval from 0 to 1. *)
Theorem positive_class_proba_in_unit_interval (model model' : P)
    (df : DataFrame) (probas : ndarray) :
  (0 < List.length (rows df))%nat ->
  predict_proba model df = (Ok probas, model') ->
  valid_proba (List.length (rows df)) probas ->
  exists p r0,
    positive_class_proba df model = (Ok p, model') /\
    nth_error probas 0 = Some r0 /\ nth_error r0 1 = Some p /\
    in_unit_interval p = true.
Proof.
  intros Hrows Hp [Hlen Hall].
  rewrite (positive_class_proba_indexes _ _ _ _ Hp).
  destruct probas as [| r0 rest]; [simpl in Hlen; lia |].
  apply Forall_inv in Hall. destruct Hall as [Hl2 Hin].
  destruct r0 as [| p0 [| p1 [| ? ?]]]; try discriminate.
  exists p1, [p0; p1]. repeat split.
  apply Forall_inv_tail, Forall_inv in Hin. exact Hin.
Qed.



End PredictionClaims.

(** * Concrete runs *)

(** The scenario on a pipeline fit on the hospital columns. *)
Example preprocess_hospital_row :
  preprocess (PyInt 60) (PyStr "MALE") (PyStr "NO") hospital_model =
  (Ok (mkDataFrame
         ["AGE"; "GENDER"; "RURAL"; ADMISSION; "SMOKING"; "DM"; "HTN"]
         [[PyInt 60; PyStr "MALE"; PyStr "NO"; PyStr "EMERGENCY";
           PyInt 0; PyInt 0; PyInt 0]]),
   hospital_model).
Proof. reflexivity. Qed.

Example make_prediction_hospital :
  make_prediction (PyInt 1) (PyInt 60) (PyStr "MALE") (PyStr "NO")
    hospital_model =
  (Ok "Predicted mortality risk: 25.00%", hospital_model).
Proof. vm_compute. reflexivity. Qed.

Example make_prediction_failing :
  make_prediction (PyInt 1) (PyInt 60) (PyStr "MALE") (PyStr "NO")
    failing_model =
  (Ok "⚠️ Error: could not convert string to float", failing_model).
Proof. vm_compute. reflexivity. Qed.

(** An age the form would not let through, and a missing one. *)
Example preprocess_age_500 :
  exists df,
    preprocess (PyInt 500) (PyStr "MALE") (PyStr "NO") hospital_model =
    (Ok df, hospital_model) /\
    df_at df 0 "AGE" = Some (PyInt 500).
Proof. eexists. split; reflexivity. Qed.

Example preprocess_age_None :
  exists df,
    preprocess PyNone (PyStr "MALE") (PyStr "NO") hospital_model =
    (Ok df, hospital_model) /\
    df_at df 0 "AGE" = Some PyNone.
Proof. eexists. split; reflexivity. Qed.

(** A pipeline that inference writes to: the same request, made twice,
    is answered differently. *)
Example counting_pipeline_drifts :
  run_session [(PyInt 1, PyInt 60, PyStr "MALE", PyStr "NO");
               (PyInt 2, PyInt 60, PyStr "MALE", PyStr "NO")]
              (mkCounting 0) =
  ([Ok "Predicted mortality risk: 25.00%";
    Ok "Predicted mortality risk: 75.00%"], mkCounting 2).
Proof. vm_compute. reflexivity. Qed.

(** C2, the claim as stated fails: inference interrupted by
    KeyboardInterrupt is not caught by [except Exception], and the
    callback returns no string. *)
Lemma make_prediction_propagates_KeyboardInterrupt :
  (exists df,
      preprocess (PyInt 60) (PyStr "MALE") (PyStr "NO") interrupted_model =
      (Ok df, interrupted_model) /\
      predict_proba interrupted_model df =
      (Raise KeyboardInterrupt, interrupted_model)) /\
  make_prediction (PyInt 1) (PyInt 60) (PyStr "MALE") (PyStr "NO")
    interrupted_model =
  (Raise KeyboardInterrupt, interrupted_model) /\
  ~ exists s,
      fst (make_prediction (PyInt 1) (PyInt 60) (PyStr "MALE") (PyStr "NO")
             interrupted_model) = Ok s.
Proof.
  split; [eexists; split; reflexivity |].
  split; [reflexivity |].
  intros [s Hs]. discriminate Hs.
Qed.

(** C10, the claim as stated fails: for feature names in which AGE occurs
    twice the row has two columns, not the three names of the list. *)
Lemma preprocess_repeated_name_columns :
  step_feature_names_in_ repeated_model "pre" = Ok ["AGE"; "GENDER"; "AGE"] /\
  exists df,
    preprocess (PyInt 60) (PyStr "MALE") (PyStr "NO") repeated_model =
    (Ok df, repeated_model) /\
    columns df = ["AGE"; "GENDER"] /\
    columns df <> ["AGE"; "GENDER"; "AGE"].
Proof.
  split; [reflexivity |]. eexists. split; [reflexivity |].
  split; [reflexivity | discriminate].
Qed.

(** An exception whose [__str__] raises is caught, and the handler lets
    out what [__str__] raised. *)
Example make_prediction_unprintable :
  make_prediction (PyInt 1) (PyInt 60) (PyStr "MALE") (PyStr "NO")
    unprintable_model =
  (Raise (RuntimeError "no message"), unprintable_model).
Proof. reflexivity. Qed.



(** The values the form starts with are a request it can produce. *)
Example default_request_valid :
  valid_request (PyInt (input_value age_input))
                (PyStr (dropdown_value gender_dropdown))
                (PyStr (dropdown_value rural_dropdown)).
Proof.
  repeat split.
  - exists 60%Z. split; [reflexivity | simpl; lia].
  - exists "MALE". split; [reflexivity | simpl; tauto].
  - exists "NO". split; [reflexivity | simpl; tauto].
Qed.

(** ** Instances of the theorems *)

Lemma hospital_columns_NoDup : NoDup hospital_columns.
Proof.
  unfold hospital_columns, ADMISSION.
  repeat (constructor; [simpl; intuition discriminate |]). constructor.
Qed.

Lemma preprocess_key_set_witness :
  step_feature_names_in_ hospital_model "pre" = Ok hospital_columns /\
  exists df,
    preprocess (PyInt 60) (PyStr "MALE") (PyStr "NO") hospital_model =
    (Ok df, hospital_model) /\
    List.length (rows df) = 1%nat /\
    NoDup (columns df) /\
    (forall c, In c (columns df) <-> In c hospital_columns) /\
    (forall c, In c hospital_columns -> exists v, df_at df 0 c = Some v) /\
    (forall c, ~ In c hospital_columns -> df_at df 0 c = None) /\
    Forall (fun row => List.length row = List.length (columns df)) (rows df).
Proof.
  split; [reflexivity |].
  apply (preprocess_key_set hospital_model (PyInt 60) (PyStr "MALE")
           (PyStr "NO") hospital_columns).
  reflexivity.
Defined.

Lemma preprocess_admission_emergency_witness :
  step_feature_names_in_ hospital_model "pre" = Ok hospital_columns /\
  In ADMISSION hospital_columns /\
  exists df,
    preprocess (PyInt 33) (PyStr "FEMALE") (PyStr "YES") hospital_model =
    (Ok df, hospital_model) /\
    df_at df 0 ADMISSION = Some (PyStr "EMERGENCY").
Proof.
  assert (Hin : In ADMISSION hospital_columns) by (simpl; tauto).
  split; [reflexivity |]. split; [exact Hin |].
  apply (preprocess_admission_emergency hospital_model (PyInt 33)
           (PyStr "FEMALE") (PyStr "YES") hospital_columns);
    [reflexivity | exact Hin].
Defined.

Lemma preprocess_other_columns_zero_witness :
  step_feature_names_in_ hospital_model "pre" = Ok hospital_columns /\
  exists df,
    preprocess (PyInt 33) (PyStr "FEMALE") (PyStr "YES") hospital_model =
    (Ok df, hospital_model) /\
    forall c,
      In c hospital_columns ->
      c <> "AGE" -> c <> "GENDER" -> c <> "RURAL" -> c <> ADMISSION ->
      df_at df 0 c = Some (PyInt 0).
Proof.
  split; [reflexivity |].
  apply (preprocess_other_columns_zero hospital_model (PyInt 33)
           (PyStr "FEMALE") (PyStr "YES") hospital_columns).
  reflexivity.
Defined.

Lemma preprocess_scenario_60_male_no_witness :
  step_feature_names_in_ hospital_model "pre" = Ok hospital_columns /\
  exists df,
    preprocess (PyInt 60) (PyStr "MALE") (PyStr "NO") hospital_model =
    (Ok df, hospital_model) /\
    (In "AGE" hospital_columns -> df_at df 0 "AGE" = Some (PyInt 60)) /\
    (In "GENDER" hospital_columns ->
     df_at df 0 "GENDER" = Some (PyStr "MALE")) /\
    (In "RURAL" hospital_columns -> df_at df 0 "RURAL" = Some (PyStr "NO")) /\
    (In ADMISSION hospital_columns ->
     df_at df 0 ADMISSION = Some (PyStr "EMERGENCY")) /\
    (forall c,
        In c hospital_columns ->
        c <> "AGE" -> c <> "GENDER" -> c <> "RURAL" -> c <> ADMISSION ->
        df_at df 0 c = Some (PyInt 0)).
Proof.
  split; [reflexivity |].
  apply (preprocess_scenario_60_male_no hospital_model hospital_columns).
  reflexivity.
Defined.

Lemma preprocess_no_age_validation_witness :
  (exists df,
      preprocess PyNone (PyStr "MALE") (PyStr "NO") hospital_model =
      (Ok df, hospital_model) /\
      (In "AGE" hospital_columns -> df_at df 0 "AGE" = Some PyNone)) /\
  input_min age_input = 0%Z /\ input_max age_input = 120%Z /\
  ~ number_input_accepts age_input (PyInt (-1)) /\
  ~ number_input_accepts age_input (PyInt 121) /\
  ~ number_input_accepts age_input PyNone.
Proof.
  exact (preprocess_no_age_validation hospital_model PyNone (PyStr "MALE")
           (PyStr "NO")).
Defined.

Lemma preprocess_columns_fit_order_witness :
  step_feature_names_in_ hospital_model "pre" = Ok hospital_columns /\
  NoDup hospital_columns /\
  exists df,
    preprocess (PyInt 60) (PyStr "MALE") (PyStr "NO") hospital_model =
    (Ok df, hospital_model) /\
    columns df = ordered_unique hospital_columns /\
    (NoDup hospital_columns -> columns df = hospital_columns).
Proof.
  split; [reflexivity |]. split; [exact hospital_columns_NoDup |].
  apply (preprocess_columns_fit_order hospital_model (PyInt 60)
           (PyStr "MALE") (PyStr "NO") hospital_columns).
  reflexivity.
Defined.

Lemma make_prediction_catches_Exception_witness :
  (exists df m,
      preprocess (PyInt 60) (PyStr "MALE") (PyStr "NO") failing_model =
      (Ok df, m) /\
      positive_class_proba df m =
      (Raise (ValueError "could not convert string to float"),
       failing_model)) /\
  exists s,
    make_prediction (PyInt 1) (PyInt 60) (PyStr "MALE") (PyStr "NO")
      failing_model = (Ok s, failing_model) /\
    s = "⚠️ Error: could not convert string to float" /\
    String.prefix "⚠️ Error:" s = true.
Proof.
  assert (Hbody :
    exists df m,
      preprocess (PyInt 60) (PyStr "MALE") (PyStr "NO") failing_model =
      (Ok df, m) /\
      positive_class_proba df m =
      (Raise (ValueError "could not convert string to float"),
       failing_model))
    by (eexists; eexists; split; reflexivity).
  split; [exact Hbody |].
  exact (make_prediction_catches_Exception failing_model failing_model
           (PyInt 1) (PyInt 60) (PyStr "MALE") (PyStr "NO")
           (ValueError "could not convert string to float")
           (or_intror Hbody)).
Defined.

Lemma positive_class_proba_in_unit_interval_witness :
  (0 < List.length (rows (pd_DataFrame [[("AGE", PyInt 60)]])))%nat /\
  predict_proba hospital_model (pd_DataFrame [[("AGE", PyInt 60)]]) =
  (Ok [[three_quarters; quarter]], hospital_model) /\
  valid_proba (List.length (rows (pd_DataFrame [[("AGE", PyInt 60)]])))
    [[three_quarters; quarter]] /\
  exists p r0,
    positive_class_proba (pd_DataFrame [[("AGE", PyInt 60)]]) hospital_model =
    (Ok p, hospital_model) /\
    nth_error [[three_quarters; quarter]] 0 = Some r0 /\
    nth_error r0 1 = Some p /\
    in_unit_interval p = true.
Proof.
  assert (Hrows :
    (0 < List.length (rows (pd_DataFrame [[("AGE", PyInt 60)]])))%nat)
    by (simpl; lia).
  assert (Hvalid :
    valid_proba (List.length (rows (pd_DataFrame [[("AGE", PyInt 60)]])))
      [[three_quarters; quarter]]).
  { split; [reflexivity |].
    constructor; [| constructor].
    split; [reflexivity |].
    constructor; [reflexivity |]. constructor; [reflexivity |]. constructor. }
  split; [exact Hrows |]. split; [reflexivity |]. split; [exact Hvalid |].
  exact (positive_class_proba_in_unit_interval hospital_model hospital_model
           (pd_DataFrame [[("AGE", PyInt 60)]]) [[three_quarters; quarter]]
           Hrows eq_refl Hvalid).
Defined.



(** * Beyond the claims *)

(** ** The value of a rounded product *)

Section RoundingValue.

Local Open Scope Z_scope.

Lemma shr_1_value (r : shr_record) :
  0 <= shr_m r ->
  0 <= shr_m (shr_1 r) /\
  shr_m (shr_1 r) = shr_m r / 2 /\
  (exact_record r -> shr_m r = shr_m (shr_1 r) * 2 -> exact_record (shr_1 r)).
Proof.
  destruct r as [m b s]. unfold exact_record. cbn [shr_m shr_r shr_s].
  intros Hm.
  destruct m as [| [p | p |] | p]; cbn [shr_1 shr_m shr_r shr_s];
    try lia; (split; [lia |]); split.
  - reflexivity.
  - intros [-> ->] _. now split.
  - rewrite (Pos2Z.inj_xI p). Z.div_mod_to_equations. lia.
  - intros _ E. rewrite (Pos2Z.inj_xI p) in E. lia.
  - rewrite (Pos2Z.inj_xO p). Z.div_mod_to_equations. lia.
  - intros [-> ->] _. now split.
  - reflexivity.
  - intros _ E. lia.
Qed.

Lemma iter_shr_1_value (p : positive) (r : shr_record) :
  0 <= shr_m r ->
  0 <= shr_m (iter_pos shr_1 p r) /\
  shr_m (iter_pos shr_1 p r) = shr_m r / 2 ^ Z.pos p /\
  (exact_record r -> shr_m r = shr_m (iter_pos shr_1 p r) * 2 ^ Z.pos p ->
   exact_record (iter_pos shr_1 p r)).
Proof.
  revert r. induction p as [p IH | p IH |]; intros r Hr; cbn [iter_pos].
  - destruct (shr_1_value r Hr) as (P1 & V1 & E1).
    destruct (IH _ P1) as (P2 & V2 & E2).
    destruct (IH _ P2) as (P3 & V3 & E3).
    assert (Hpow : 2 ^ Z.pos p~1 = 2 * (2 ^ Z.pos p * 2 ^ Z.pos p)).
    { rewrite (Pos2Z.inj_xI p), Z.pow_add_r, Z.pow_1_r, Z.pow_twice_r by lia.
      ring. }
    assert (Hp : 0 < 2 ^ Z.pos p) by (apply Z.pow_pos_nonneg; lia).
    set (a := 2 ^ Z.pos p) in *. rewrite Hpow.
    set (m0 := shr_m r) in *.
    set (m1 := shr_m (shr_1 r)) in *.
    set (m2 := shr_m (iter_pos shr_1 p (shr_1 r))) in *.
    set (m3 := shr_m (iter_pos shr_1 p (iter_pos shr_1 p (shr_1 r)))) in *.
    assert (V : m3 = m0 / (2 * (a * a))).
    { rewrite V3, V2, V1. rewrite !Z.div_div by lia. f_equal. }
    split; [exact P3 |]. split; [exact V |].
    intros Ex Hm.
    assert (H1 : m0 = m1 * 2) by (subst m1; Z.div_mod_to_equations; nia).
    assert (H2 : m1 = m2 * a) by (rewrite V2 in *; Z.div_mod_to_equations; nia).
    assert (H3 : m2 = m3 * a) by (rewrite V3 in *; Z.div_mod_to_equations; nia).
    auto.
  - destruct (IH _ Hr) as (P2 & V2 & E2).
    destruct (IH _ P2) as (P3 & V3 & E3).
    assert (Hpow : 2 ^ Z.pos p~0 = 2 ^ Z.pos p * 2 ^ Z.pos p).
    { rewrite (Pos2Z.inj_xO p), Z.pow_twice_r. ring. }
    assert (Hp : 0 < 2 ^ Z.pos p) by (apply Z.pow_pos_nonneg; lia).
    set (a := 2 ^ Z.pos p) in *. rewrite Hpow.
    set (m0 := shr_m r) in *.
    set (m2 := shr_m (iter_pos shr_1 p r)) in *.
    set (m3 := shr_m (iter_pos shr_1 p (iter_pos shr_1 p r))) in *.
    assert (V : m3 = m0 / (a * a)).
    { rewrite V3, V2. rewrite !Z.div_div by lia. f_equal. }
    split; [exact P3 |]. split; [exact V |].
    intros Ex Hm.
    assert (H2 : m0 = m2 * a) by (rewrite V2 in *; Z.div_mod_to_equations; nia).
    assert (H3 : m2 = m3 * a) by (rewrite V3 in *; Z.div_mod_to_equations; nia).
    auto.
  - rewrite Z.pow_1_r. apply shr_1_value, Hr.
Qed.

Lemma exact_record_loc (r : shr_record) :
  exact_record r -> loc_of_shr_record r = loc_Exact.
Proof. destruct r as [m b s]. intros [E1 E2]. simpl in *. now subst. Qed.

Lemma shr_fexp_value (m e : Z) :
  0 <= m ->
  let (r, e') := shr_fexp 53 1024 m e loc_Exact in
  e <= e' /\
  shr_m r = m / 2 ^ (e' - e) /\
  (m = shr_m r * 2 ^ (e' - e) -> loc_of_shr_record r = loc_Exact).
Proof.
  intros Hm. unfold shr_fexp, shr. cbn [shr_record_of_loc].
  destruct (fexp 53 1024 (Zdigits2 m + e) - e) as [| p | p] eqn:E.
  - rewrite Z.sub_diag, Z.pow_0_r, Z.div_1_r. cbn. now repeat split.
  - replace (e + Z.pos p - e) with (Z.pos p) by lia.
    destruct (iter_shr_1_value p (Build_shr_record m false false) Hm)
      as (_ & V & Ex).
    cbn [shr_m] in V, Ex.
    split; [lia |]. split; [exact V |].
    intros Hdiv. apply exact_record_loc, Ex; [now split | exact Hdiv].
  - rewrite Z.sub_diag, Z.pow_0_r, Z.div_1_r. cbn. now repeat split.
Qed.

Lemma round_nearest_even_cases (m : Z) (l : location) :
  round_nearest_even m l = m \/
  (round_nearest_even m l = m + 1 /\ l <> loc_Exact).
Proof.
  unfold round_nearest_even.
  destruct l as [| []]; try destruct (Z.even m); auto;
    right; (split; [reflexivity | discriminate]).
Qed.

(** Dropping low bits keeps a number below a bound that is a multiple of
    the bits' weight. *)
Lemma shift_bound (m K e e' : Z) :
  0 <= K -> e <= e' -> e' <= 0 ->
  m <= K * 2 ^ (- e) -> m / 2 ^ (e' - e) <= K * 2 ^ (- e').
Proof.
  intros HK Hee He' Hm.
  replace (- e) with (- e' + (e' - e)) in Hm by lia.
  rewrite Z.pow_add_r in Hm by lia.
  assert (Hb : 0 < 2 ^ (e' - e)) by (apply Z.pow_pos_nonneg; lia).
  set (b := 2 ^ (e' - e)) in *. set (a := 2 ^ (- e')) in *.
  apply Z.div_le_upper_bound; [exact Hb |]. lia.
Qed.

(** Rounding up after an inexact shift stays below such a bound too. *)
Lemma round_up_bound (m b L : Z) :
  0 < b -> m <= L * b -> m <> m / b * b -> m / b + 1 <= L.
Proof.
  intros Hb Hm Hne. Z.div_mod_to_equations. nia.
Qed.

Lemma binary_round_aux_bound (s : bool) (mx ex K : Z) :
  0 < mx -> 0 <= K -> ex < 0 -> Zdigits2 mx + ex <= 51 ->
  mx <= K * 2 ^ (- ex) ->
  binary_round_aux 53 1024 s mx ex loc_Exact = S754_zero s \/
  exists m2 e2,
    binary_round_aux 53 1024 s mx ex loc_Exact = S754_finite s m2 e2 /\
    e2 < 0 /\ Z.pos m2 <= K * 2 ^ (- e2).
Proof.
  intros Hm HK Hex Hd Hle. unfold binary_round_aux.
  pose proof (shr_fexp_spec mx ex loc_Exact) as S1.
  pose proof (shr_fexp_value mx ex) as V1.
  destruct (shr_fexp 53 1024 mx ex loc_Exact) as [r1 e1].
  destruct S1 as [P1 C1]; [lia |].
  destruct V1 as (L1 & Vm1 & X1); [lia |].
  pose proof (round_nearest_even_digits (shr_m r1) (loc_of_shr_record r1) P1)
    as [P2 D2].
  pose proof (round_nearest_even_cases (shr_m r1) (loc_of_shr_record r1))
    as R1.
  set (m1 := round_nearest_even (shr_m r1) (loc_of_shr_record r1)) in *.
  clearbody m1.
  pose proof (shr_fexp_spec m1 e1 loc_Exact P2) as S2.
  pose proof (shr_fexp_value m1 e1 P2) as V2.
  destruct (shr_fexp 53 1024 m1 e1 loc_Exact) as [r2 e2].
  destruct S2 as [P3 C2]. destruct V2 as (L2 & Vm2 & _).
  assert (Hd1 : 1 <= Zdigits2 mx) by (destruct mx; simpl in *; lia).
  assert (He1 : e1 < 0 /\ Zdigits2 (shr_m r1) + e1 <= 51).
  { unfold fexp, emin in C1.
    destruct C1 as [(Ee1 & Em1 & F1) | (Ee1 & G1 & D1)];
      [rewrite Em1 | rewrite D1]; lia. }
  destruct He1 as [He1 Hd2].
  assert (He2 : e2 < 0).
  { unfold fexp, emin in C2.
    destruct C2 as [(Ee2 & Em2 & F2) | (Ee2 & G2 & D3)]; lia. }
  assert (Hb1 : shr_m r1 <= K * 2 ^ (- e1))
    by (rewrite Vm1; apply shift_bound; lia).
  assert (Hb2 : m1 <= K * 2 ^ (- e1)).
  { destruct R1 as [-> | [-> Hloc]]; [exact Hb1 |].
    rewrite Vm1. apply round_up_bound.
    - apply Z.pow_pos_nonneg; lia.
    - replace (K * 2 ^ (- e1) * 2 ^ (e1 - ex)) with (K * 2 ^ (- ex));
        [exact Hle |].
      rewrite <- Z.mul_assoc, <- Z.pow_add_r by lia. do 2 f_equal. lia.
    - intros Hdiv. apply Hloc, X1. now rewrite <- Vm1 in Hdiv. }
  assert (Hb3 : shr_m r2 <= K * 2 ^ (- e2))
    by (rewrite Vm2; apply shift_bound; lia).
  destruct (shr_m r2) as [| p | p] eqn:E2; [now left | | lia].
  right. exists p, e2.
  assert (Hle2 : e2 <= 1024 - 53) by lia.
  apply Z.leb_le in Hle2. rewrite Hle2. repeat split; assumption.
Qed.

Lemma unit_interval_le (m : positive) (e : Z) :
  in_unit_interval (S754_finite false m e) = true ->
  e <= 0 /\ Z.pos m <= 2 ^ (- e).
Proof.
  cbn [in_unit_interval].
  destruct (0 <=? e) eqn:E; intros Hle; apply Z.leb_le in Hle.
  - apply Z.leb_le in E.
    assert (e = 0).
    { destruct (Z.eq_dec e 0) as [| N]; [assumption |].
      assert (2 ^ 1 <= 2 ^ e) by (apply Z.pow_le_mono_r; lia).
      rewrite Z.pow_1_r in *. nia. }
    subst e. rewrite Z.pow_0_r, Z.mul_1_r in Hle. simpl. lia.
  - apply Z.leb_gt in E. lia.
Qed.

(** The hundredfold of a probability, as binary64 computes it, is a zero
    or a positive number that does not exceed 100. *)
Lemma percent_of_probability_bound (x : spec_float) :
  in_unit_interval x = true ->
  (exists s, x = S754_zero s /\
             binary64_mul x (binary64_of_Z 100) = S754_zero s) \/
  binary64_mul x (binary64_of_Z 100) = S754_zero false \/
  exists m e,
    binary64_mul x (binary64_of_Z 100) = S754_finite false m e /\
    e < 0 /\ Z.pos m <= 100 * 2 ^ (- e).
Proof.
  change (binary64_of_Z 100) with (S754_finite false 7036874417766400 (-46)).
  destruct x as [s | s | | [|] m e]; try discriminate; intros Hx.
  - left. exists s. split; [reflexivity | now destruct s].
  - right. unfold binary64_mul, SFmul. cbn [xorb].
    pose proof (unit_interval_digits m e Hx) as Hd.
    apply unit_interval_le in Hx. destruct Hx as [He Hm].
    apply binary_round_aux_bound; try lia.
    + assert (Zdigits2 (Z.pos (m * 7036874417766400)) <=
              Zdigits2 (Z.pos m) + 53); [| lia].
      pose proof (Zdigits2_bounds m) as [_ Hhi].
      pose proof (Zdigits2_nonneg (Z.pos m)) as Hn.
      apply Zdigits2_le; [lia | lia |].
      rewrite Z.pow_add_r, Pos2Z.inj_mul by lia.
      assert (7036874417766400 < 2 ^ 53) by reflexivity.
      nia.
    + replace (- (e + -46)) with (- e + 46) by lia.
      rewrite Z.pow_add_r, Pos2Z.inj_mul by lia.
      change (2 ^ 46) with 70368744177664.
      assert (0 < 2 ^ (- e)) by (apply Z.pow_pos_nonneg; lia).
      nia.
Qed.

Lemma div_round_half_even_bound (num den T : Z) :
  0 <= num -> 0 < den -> num <= T * den ->
  0 <= div_round_half_even num den <= T.
Proof.
  intros Hn Hd Hle. unfold div_round_half_even.
  destruct (2 * (num mod den) ?= den) eqn:C;
    [apply Z.compare_eq in C | rewrite Z.compare_lt_iff in C
     | rewrite Z.compare_gt_iff in C];
    try destruct (Z.even (num / den));
    Z.div_mod_to_equations; nia.
Qed.

Lemma scaled_round_bound (p : nat) (m : positive) (e K : Z) :
  0 <= K -> e < 0 -> Z.pos m <= K * 2 ^ (- e) ->
  0 <= scaled_round p m e <= K * 10 ^ Z.of_nat p.
Proof.
  intros HK He Hm. unfold scaled_round.
  destruct (0 <=? e) eqn:E; [apply Z.leb_le in E; lia |].
  assert (0 < 2 ^ (- e)) by (apply Z.pow_pos_nonneg; lia).
  assert (0 < 10 ^ Z.of_nat p) by (apply Z.pow_pos_nonneg; lia).
  apply div_round_half_even_bound; nia.
Qed.

(** The rendering of a probability: between 0.00% and 100.00%, and a
    minus sign only before a negative zero. *)
Lemma format_percent_probability_bound (x : spec_float) :
  in_unit_interval x = true ->
  exists (s : bool) (n : Z),
    format_percent 2 x = (sign_str s ++ fixed_point 2 n ++ "%")%string /\
    0 <= n <= 10000 /\
    (s = true -> x = S754_zero true /\ n = 0).
Proof.
  intros Hx. unfold format_percent.
  destruct (percent_of_probability_bound x Hx)
    as [(s & -> & ->) | [-> | (m & e & -> & He & Hm)]].
  - exists s, 0. cbn [format_f]. rewrite append_assoc.
    split; [reflexivity |]. split; [lia |]. intros ->. now split.
  - exists false, 0. cbn [format_f]. rewrite append_assoc.
    split; [reflexivity |]. split; [lia | discriminate].
  - exists false, (scaled_round 2 m e). cbn [format_f].
    rewrite append_assoc. split; [reflexivity |].
    split; [| discriminate].
    apply (scaled_round_bound 2 m e 100); lia.
Qed.

End RoundingValue.

(** ** The table preprocess returns *)

Section PreprocessTable.

Context {P : Type} `{Pipeline P}.

Lemma ordered_unique_idempotent (l : list string) :
  ordered_unique (ordered_unique l) = ordered_unique l.
Proof. apply ordered_unique_NoDup, NoDup_ordered_unique. Qed.

(** The table in full: the distinct expected names as columns and, under
    each, the value of its slot or 0. *)
Lemma preprocess_table (model : P) (age gender rural : PyVal)
    (cols : list string) :
  step_feature_names_in_ model "pre" = Ok cols ->
  preprocess age gender rural model =
  (Ok (mkDataFrame
         (ordered_unique cols)
         [map (fun c =>
                 if String.eqb "AGE" c then age
                 else if String.eqb ADMISSION c then PyStr "EMERGENCY"
                 else if String.eqb "RURAL" c then rural
                 else if String.eqb "GENDER" c then gender
                 else PyInt 0)
              (ordered_unique cols)]),
   model).
Proof.
  intros Hn. rewrite (preprocess_returns model age gender rural cols Hn).
  f_equal. f_equal. unfold pd_DataFrame. cbn [fold_left map].
  rewrite fold_add_key_nil, base_keys, ordered_unique_idempotent.
  f_equal. f_equal. apply map_ext_in. intros c Hc.
  apply (proj1 (In_ordered_unique _ _)) in Hc.
  exact (f_equal (fun o => match o with Some v => v | None => NaN end)
           (base_get age gender rural cols c Hc)).
Qed.

End PreprocessTable.

(** X1.  Once the feature names are read, [preprocess] returns exactly
    this table: its columns are the distinct expected names in order of
    first occurrence, and its only row holds, column by column, the age
    under AGE, EMERGENCY under the admission type, the rural value under
    RURAL, the gender under GENDER and 0 under every other name; the row
    has as many cells as there are columns. *)
Theorem preprocess_returns_table {P : Type} `{Pipeline P} (model : P)
    (age gender rural : PyVal) (cols : list string) :
  step_feature_names_in_ model "pre" = Ok cols ->
  exists row,
    preprocess age gender rural model =
    (Ok (mkDataFrame (ordered_unique cols) [row]), model) /\
    row = map (fun c =>
                 if String.eqb "AGE" c then age
                 else if String.eqb ADMISSION c then PyStr "EMERGENCY"
                 else if String.eqb "RURAL" c then rural
                 else if String.eqb "GENDER" c then gender
                 else PyInt 0)
              (ordered_unique cols) /\
    List.length row = List.length (ordered_unique cols).
Proof.
  intros Hn. eexists. split; [now apply preprocess_table |].
  split; [reflexivity | apply length_map].
Qed.

(** X2.  A request value whose column is not expected is ignored: two
    requests that agree on the age when AGE is expected, on the gender
    when GENDER is, and on the rural value when RURAL is, give the same
    table. *)
Theorem preprocess_ignores_unexpected_slots {P : Type} `{Pipeline P}
    (model : P) (cols : list string)
    (age age' gender gender' rural rural' : PyVal) :
  step_feature_names_in_ model "pre" = Ok cols ->
  (In "AGE" cols -> age = age') ->
  (In "GENDER" cols -> gender = gender') ->
  (In "RURAL" cols -> rural = rural') ->
  preprocess age gender rural model = preprocess age' gender' rural' model.
Proof.
  intros Hn Ha Hg Hr.
  rewrite (preprocess_table model age gender rural cols Hn).
  rewrite (preprocess_table model age' gender' rural' cols Hn).
  f_equal. f_equal. f_equal. f_equal. apply map_ext_in. intros c Hc.
  apply (proj1 (In_ordered_unique _ _)) in Hc.
  destruct (String.eqb_spec "AGE" c) as [<- | _]; [now apply Ha |].
  destruct (String.eqb ADMISSION c); [reflexivity |].
  destruct (String.eqb_spec "RURAL" c) as [<- | _]; [now apply Hr |].
  destruct (String.eqb_spec "GENDER" c) as [<- | _]; [now apply Hg |].
  reflexivity.
Qed.

(** X3.  A name that occurs again in the feature names changes nothing:
    the table is the one built for the names with the later occurrences
    dropped. *)
Theorem preprocess_repeated_names_no_effect {P : Type} `{Pipeline P}
    (model model' : P) (cols : list string) (age gender rural : PyVal) :
  step_feature_names_in_ model "pre" = Ok cols ->
  step_feature_names_in_ model' "pre" = Ok (ordered_unique cols) ->
  fst (preprocess age gender rural model) =
  fst (preprocess age gender rural model').
Proof.
  intros Hn Hn'.
  rewrite (preprocess_table model age gender rural cols Hn).
  rewrite (preprocess_table model' age gender rural _ Hn').
  now rewrite ordered_unique_idempotent.
Qed.

(** X4.  For a request the form can produce, the cells the pipeline is
    given are in range: AGE is an integer from 0 to 120, GENDER is MALE
    or FEMALE, RURAL is YES or NO (each where the column is expected). *)
Theorem preprocess_form_values_in_range {P : Type} `{Pipeline P}
    (model : P) (cols : list string) (age gender rural : PyVal) :
  valid_request age gender rural ->
  step_feature_names_in_ model "pre" = Ok cols ->
  exists df,
    preprocess age gender rural model = (Ok df, model) /\
    (In "AGE" cols ->
     exists n, df_at df 0 "AGE" = Some (PyInt n) /\ (0 <= n <= 120)%Z) /\
    (In "GENDER" cols ->
     df_at df 0 "GENDER" = Some (PyStr "MALE") \/
     df_at df 0 "GENDER" = Some (PyStr "FEMALE")) /\
    (In "RURAL" cols ->
     df_at df 0 "RURAL" = Some (PyStr "YES") \/
     df_at df 0 "RURAL" = Some (PyStr "NO")).
Proof.
  intros (Ha & Hg & Hr) Hn.
  destruct (preprocess_cells model age gender rural cols Hn)
    as (df & Hrun & _ & _ & Hcell).
  exists df. split; [exact Hrun |].
  destruct Ha as (n & -> & Hn').
  destruct Hg as (g & -> & Hg'). destruct Hr as (r & -> & Hr').
  simpl in Hn', Hg', Hr'.
  split; [| split].
  - intros Hin. exists n. now rewrite (Hcell _ Hin).
  - intros Hin. rewrite (Hcell _ Hin). cbn.
    destruct Hg' as [<- | [<- | []]]; auto.
  - intros Hin. rewrite (Hcell _ Hin). cbn.
    destruct Hr' as [<- | [<- | []]]; auto.
Qed.

(** ** More on the callback *)

Section PredictionExtras.

Context {P : Type} `{Pipeline P}.

(** The table [preprocess] returns has one row. *)
Lemma preprocess_one_row (model m : P) (age gender rural : PyVal)
    (df : DataFrame) :
  preprocess age gender rural model = (Ok df, m) ->
  m = model /\ List.length (rows df) = 1%nat.
Proof.
  intros Hp.
  destruct (step_feature_names_in_ model "pre") as [cols | e] eqn:Hn.
  - rewrite (preprocess_table model age gender rural cols Hn) in Hp.
    injection Hp as <- <-. now split.
  - rewrite (preprocess_raises model age gender rural e Hn) in Hp.
    discriminate.
Qed.

Lemma prefix_Predicted_of_Error (msg : string) :
  String.prefix "Predicted mortality risk: " ("⚠️ Error: " ++ msg) = false.
Proof. reflexivity. Qed.

Lemma prefix_Error_of_Predicted (rendering : string) :
  String.prefix "⚠️ Error: " ("Predicted mortality risk: " ++ rendering)
  = false.
Proof. reflexivity. Qed.

(** X5.  A click touches the pipeline through one [predict_proba] call on
    the table [preprocess] built, and not at all when [preprocess]
    raised: the state it leaves is the state that call left, or the
    state it found. *)
Theorem make_prediction_pipeline_use (model : P)
    (n_clicks age gender rural : PyVal) :
  snd (make_prediction n_clicks age gender rural model) =
  match fst (preprocess age gender rural model) with
  | Ok df => snd (predict_proba model df)
  | Raise _ => model
  end.
Proof.
  pose proof (preprocess_state model age gender rural) as Hs.
  destruct (preprocess age gender rural model) as [[df | e] m] eqn:Hp;
    simpl in Hs; subst m; cbn [fst].
  - destruct (predict_proba model df) as [[probas | e] m'] eqn:Hq.
    + pose proof (positive_class_proba_indexes _ _ _ _ Hq) as Hi.
      destruct (ndarray_getitem probas 0 1) as [p | e] eqn:Hg.
      * now rewrite (make_prediction_body_returns _ _ _ _ _ _ _ _ _ Hp Hi).
      * rewrite (make_prediction_body_raises model m' n_clicks age gender
                   rural e) by (right; now exists df, model).
        now destruct (exc_is_Exception e).
    + pose proof (positive_class_proba_raises _ _ _ _ Hq) as Hi.
      rewrite (make_prediction_body_raises model m' n_clicks age gender
                 rural e) by (right; now exists df, model).
      now destruct (exc_is_Exception e).
  - rewrite (make_prediction_body_raises model model n_clicks age gender
               rural e) by now left.
    now destruct (exc_is_Exception e).
Qed.

(** X6.  When the pipeline's answer has no entry at row 0, column 1 (no
    row at all, or a row 0 with fewer than two class columns), the
    callback returns the warning with numpy's out-of-bounds message for
    the axis that fell short, and raises nothing. *)
Theorem make_prediction_short_answer (model model' : P)
    (n_clicks age gender rural : PyVal) (df : DataFrame) (probas : ndarray) :
  preprocess age gender rural model = (Ok df, model) ->
  predict_proba model df = (Ok probas, model') ->
  match probas with
  | [] => True
  | r0 :: _ => (List.length r0 < 2)%nat
  end ->
  make_prediction n_clicks age gender rural model =
  (Ok ("⚠️ Error: " ++
       match probas with
       | [] => out_of_bounds_message 0 0 0
       | r0 :: _ => out_of_bounds_message 1 1 (List.length r0)
       end),
   model').
Proof.
  intros Hp Hq Hshort.
  pose proof (positive_class_proba_indexes _ _ _ _ Hq) as Hi.
  assert (Hg : ndarray_getitem probas 0 1 =
               Raise match probas with
                     | [] => out_of_bounds 0 0 0
                     | r0 :: _ => out_of_bounds 1 1 (List.length r0)
                     end).
  { destruct probas as [| r0 rest]; [reflexivity |].
    unfold ndarray_getitem. cbn [nth_error].
    destruct r0 as [| p0 [| p1 r0]]; [reflexivity | reflexivity |].
    simpl in Hshort. lia. }
  rewrite Hg in Hi.
  rewrite (make_prediction_body_raises model model' n_clicks age gender rural
             _ (or_intror (ex_intro _ df (ex_intro _ model (conj Hp Hi))))).
  now destruct probas.
Qed.

(** X7.  What the callback returns can be told apart by how it starts: a
    string that starts with [Predicted mortality risk: ] was produced
    because the [try] body ran to its end, one that starts with the
    warning sign because an exception was caught, and no returned string
    starts with both or with neither. *)
Theorem make_prediction_outputs_told_apart (model : P)
    (n_clicks age gender rural : PyVal) (s : string) :
  fst (make_prediction n_clicks age gender rural model) = Ok s ->
  (String.prefix "Predicted mortality risk: " s = true /\
   String.prefix "⚠️ Error: " s = false /\
   exists df p m',
     preprocess age gender rural model = (Ok df, model) /\
     positive_class_proba df model = (Ok p, m'))
  \/
  (String.prefix "⚠️ Error: " s = true /\
   String.prefix "Predicted mortality risk: " s = false /\
   exists e m',
     exc_is_Exception e = true /\
     (preprocess age gender rural model = (Raise e, m') \/
      exists df,
        preprocess age gender rural model = (Ok df, model) /\
        positive_class_proba df model = (Raise e, m'))).
Proof.
  pose proof (preprocess_state model age gender rural) as Hs.
  destruct (preprocess age gender rural model) as [[df | e] m] eqn:Hp;
    simpl in Hs; subst m.
  - destruct (positive_class_proba df model) as [[p | e] m'] eqn:Hi.
    + rewrite (make_prediction_body_returns _ _ _ _ _ _ _ _ _ Hp Hi).
      cbn [fst]. intros [= <-]. left.
      split; [exact (prefix_append "Predicted mortality risk: "
                      (format_percent 2 p)) |].
      split; [apply prefix_Error_of_Predicted |].
      now exists df, p, m'.
    + rewrite (make_prediction_body_raises model m' n_clicks age gender
                 rural e) by (right; now exists df, model).
      destruct (exc_is_Exception e) eqn:Ex; cbn [fst]; [| discriminate].
      destruct (exc_str e) as [msg | e'']; [| discriminate].
      intros [= <-]. right.
      split; [exact (prefix_append "⚠️ Error: " msg) |].
      split; [apply prefix_Predicted_of_Error |].
      exists e, m'. split; [exact Ex |]. right. now exists df.
  - rewrite (make_prediction_body_raises model model n_clicks age gender
               rural e) by now left.
    destruct (exc_is_Exception e) eqn:Ex; cbn [fst]; [| discriminate].
    destruct (exc_str e) as [msg | e'']; [| discriminate].
    intros [= <-]. right.
    split; [exact (prefix_append "⚠️ Error: " msg) |].
    split; [apply prefix_Predicted_of_Error |].
    exists e, model. split; [exact Ex |]. now left.
Qed.

(** X8.  When the pipeline answers the table of a click with a valid
    distribution, the callback returns the risk as a number between 0.00
    and 100.00 with two decimals and a percent sign; a minus sign can
    only stand before 0.00 (a negative zero). *)
Theorem make_prediction_probability_display (model model' : P)
    (n_clicks age gender rural : PyVal) (df : DataFrame) (probas : ndarray) :
  preprocess age gender rural model = (Ok df, model) ->
  predict_proba model df = (Ok probas, model') ->
  valid_proba (List.length (rows df)) probas ->
  exists (sign : bool) (n : Z),
    make_prediction n_clicks age gender rural model =
    (Ok ("Predicted mortality risk: " ++
         sign_str sign ++ fixed_point 2 n ++ "%"), model') /\
    (0 <= n <= 10000)%Z /\
    (sign = true -> n = 0%Z).
Proof.
  intros Hp Hq [Hlen Hall].
  destruct (preprocess_one_row _ _ _ _ _ _ Hp) as [_ Hrow].
  pose proof (positive_class_proba_indexes _ _ _ _ Hq) as Hi.
  destruct probas as [| r0 rest]; [simpl in Hlen; lia |].
  apply Forall_inv in Hall. destruct Hall as [Hl2 Hin].
  destruct r0 as [| p0 [| p1 [| ? ?]]]; try discriminate.
  apply Forall_inv_tail, Forall_inv in Hin.
  destruct (format_percent_probability_bound p1 Hin)
    as (sign & n & Hfmt & Hn & Hsign).
  exists sign, n.
  rewrite (make_prediction_body_returns _ _ _ _ _ _ _ _ _ Hp Hi), Hfmt.
  split; [reflexivity |]. split; [exact Hn |].
  intros Hs. now apply Hsign.
Qed.

End PredictionExtras.

(** ** The layout and the callback's wiring *)

(** Wrapping a component in [input_row] adds no id and hides none. *)
Lemma input_row_lookup (i label_text : string) (component : Component) :
  components_with_id i (input_row label_text component) =
  components_with_id i component /\
  component_ids (input_row label_text component) = component_ids component.
Proof.
  unfold input_row. cbn [components_with_id component_ids own_id flat_map].
  now rewrite !app_nil_r.
Qed.

(** X9.  The ids of the layout are pairwise distinct, and every id the
    callback is wired to names exactly one component of the layout: its
    output the [Div] that shows the prediction, its input the Predict
    button, its three states the age input and the gender and rural
    dropdowns, in the order of the parameters of [make_prediction]. *)
Theorem callback_wiring :
  NoDup (component_ids layout) /\
  (forall d,
      In d (callback_dependencies make_prediction_callback) ->
      exists c, components_with_id (component_id d) layout = [c]) /\
  components_with_id
    (component_id (callback_output make_prediction_callback)) layout =
  [html_Div "prediction-output" "lead"] /\
  map (fun d => components_with_id (component_id d) layout)
      (callback_inputs make_prediction_callback) =
  [[dbc_Button "Predict" "predict-btn" "primary" "mt-3" 0]] /\
  map (fun d => components_with_id (component_id d) layout)
      (callback_state make_prediction_callback) =
  [[dbc_Input age_input];
   [dcc_Dropdown gender_dropdown];
   [dcc_Dropdown rural_dropdown]].
Proof.
  split.
  { change (NoDup ["age"; "gender"; "rural"; "predict-btn";
                    "prediction-output"]).
    repeat (constructor; [simpl; intuition discriminate |]). constructor. }
  split; [| repeat split; reflexivity].
  intros d Hd. simpl in Hd.
  decompose [or] Hd; try contradiction; subst d; eexists; reflexivity.
Qed.

(** ** Instances of these theorems *)

Lemma preprocess_returns_table_witness :
  step_feature_names_in_ repeated_model "pre" = Ok repeated_columns /\
  exists row,
    preprocess (PyInt 60) (PyStr "MALE") (PyStr "NO") repeated_model =
    (Ok (mkDataFrame (ordered_unique repeated_columns) [row]),
     repeated_model) /\
    row = map (fun c =>
                 if String.eqb "AGE" c then PyInt 60
                 else if String.eqb ADMISSION c then PyStr "EMERGENCY"
                 else if String.eqb "RURAL" c then PyStr "NO"
                 else if String.eqb "GENDER" c then PyStr "MALE"
                 else PyInt 0)
              (ordered_unique repeated_columns) /\
    List.length row = List.length (ordered_unique repeated_columns).
Proof.
  split; [reflexivity |].
  apply (preprocess_returns_table repeated_model (PyInt 60) (PyStr "MALE")
           (PyStr "NO") repeated_columns).
  reflexivity.
Defined.

Lemma preprocess_ignores_unexpected_slots_witness :
  step_feature_names_in_ gender_only_model "pre" = Ok ["GENDER"; "DM"] /\
  (In "AGE" ["GENDER"; "DM"] -> PyInt 60 = PyNone) /\
  (In "GENDER" ["GENDER"; "DM"] -> PyStr "MALE" = PyStr "MALE") /\
  (In "RURAL" ["GENDER"; "DM"] -> PyStr "NO" = PyStr "YES") /\
  preprocess (PyInt 60) (PyStr "MALE") (PyStr "NO") gender_only_model =
  preprocess PyNone (PyStr "MALE") (PyStr "YES") gender_only_model.
Proof.
  assert (Ha : In "AGE" ["GENDER"; "DM"] -> PyInt 60 = PyNone)
    by (simpl; intuition discriminate).
  assert (Hg : In "GENDER" ["GENDER"; "DM"] -> PyStr "MALE" = PyStr "MALE")
    by reflexivity.
  assert (Hr : In "RURAL" ["GENDER"; "DM"] -> PyStr "NO" = PyStr "YES")
    by (simpl; intuition discriminate).
  split; [reflexivity |]. split; [exact Ha |]. split; [exact Hg |].
  split; [exact Hr |].
  exact (preprocess_ignores_unexpected_slots gender_only_model
           ["GENDER"; "DM"] (PyInt 60) PyNone (PyStr "MALE") (PyStr "MALE")
           (PyStr "NO") (PyStr "YES") eq_refl Ha Hg Hr).
Defined.

Lemma preprocess_repeated_names_no_effect_witness :
  step_feature_names_in_ repeated_model "pre" = Ok repeated_columns /\
  step_feature_names_in_ deduplicated_model "pre" =
  Ok (ordered_unique repeated_columns) /\
  fst (preprocess (PyInt 60) (PyStr "MALE") (PyStr "NO") repeated_model) =
  fst (preprocess (PyInt 60) (PyStr "MALE") (PyStr "NO") deduplicated_model).
Proof.
  split; [reflexivity |]. split; [reflexivity |].
  exact (preprocess_repeated_names_no_effect repeated_model
           deduplicated_model repeated_columns (PyInt 60) (PyStr "MALE")
           (PyStr "NO") eq_refl eq_refl).
Defined.

Lemma preprocess_form_values_in_range_witness :
  valid_request (PyInt 60) (PyStr "MALE") (PyStr "NO") /\
  step_feature_names_in_ hospital_model "pre" = Ok hospital_columns /\
  exists df,
    preprocess (PyInt 60) (PyStr "MALE") (PyStr "NO") hospital_model =
    (Ok df, hospital_model) /\
    (In "AGE" hospital_columns ->
     exists n, df_at df 0 "AGE" = Some (PyInt n) /\ (0 <= n <= 120)%Z) /\
    (In "GENDER" hospital_columns ->
     df_at df 0 "GENDER" = Some (PyStr "MALE") \/
     df_at df 0 "GENDER" = Some (PyStr "FEMALE")) /\
    (In "RURAL" hospital_columns ->
     df_at df 0 "RURAL" = Some (PyStr "YES") \/
     df_at df 0 "RURAL" = Some (PyStr "NO")).
Proof.
  assert (Hv : valid_request (PyInt 60) (PyStr "MALE") (PyStr "NO")).
  { repeat split.
    - exists 60%Z. split; [reflexivity | simpl; lia].
    - exists "MALE". split; [reflexivity | simpl; tauto].
    - exists "NO". split; [reflexivity | simpl; tauto]. }
  split; [exact Hv |]. split; [reflexivity |].
  exact (preprocess_form_values_in_range hospital_model hospital_columns
           (PyInt 60) (PyStr "MALE") (PyStr "NO") Hv eq_refl).
Defined.

Lemma make_prediction_short_answer_witness :
  preprocess (PyInt 60) (PyStr "MALE") (PyStr "NO") one_class_model =
  (Ok hospital_row, one_class_model) /\
  predict_proba one_class_model hospital_row = (Ok [[one]], one_class_model) /\
  (List.length [one] < 2)%nat /\
  make_prediction (PyInt 1) (PyInt 60) (PyStr "MALE") (PyStr "NO")
    one_class_model =
  (Ok "⚠️ Error: index 1 is out of bounds for axis 1 with size 1",
   one_class_model).
Proof.
  assert (Hshort : (List.length [one] < 2)%nat) by (simpl; lia).
  split; [reflexivity |]. split; [reflexivity |]. split; [exact Hshort |].
  exact (make_prediction_short_answer one_class_model one_class_model
           (PyInt 1) (PyInt 60) (PyStr "MALE") (PyStr "NO") hospital_row
           [[one]] eq_refl eq_refl Hshort).
Defined.

Lemma make_prediction_outputs_told_apart_witness :
  fst (make_prediction (PyInt 1) (PyInt 60) (PyStr "MALE") (PyStr "NO")
         hospital_model) = Ok "Predicted mortality risk: 25.00%" /\
  ((String.prefix "Predicted mortality risk: "
      "Predicted mortality risk: 25.00%" = true /\
    String.prefix "⚠️ Error: " "Predicted mortality risk: 25.00%" = false /\
    exists df p m',
      preprocess (PyInt 60) (PyStr "MALE") (PyStr "NO") hospital_model =
      (Ok df, hospital_model) /\
      positive_class_proba df hospital_model = (Ok p, m'))
   \/
   (String.prefix "⚠️ Error: " "Predicted mortality risk: 25.00%" = true /\
    String.prefix "Predicted mortality risk: "
      "Predicted mortality risk: 25.00%" = false /\
    exists e m',
      exc_is_Exception e = true /\
      (preprocess (PyInt 60) (PyStr "MALE") (PyStr "NO") hospital_model =
       (Raise e, m') \/
       exists df,
         preprocess (PyInt 60) (PyStr "MALE") (PyStr "NO") hospital_model =
         (Ok df, hospital_model) /\
         positive_class_proba df hospital_model = (Raise e, m')))).
Proof.
  assert (Hout :
    fst (make_prediction (PyInt 1) (PyInt 60) (PyStr "MALE") (PyStr "NO")
           hospital_model) = Ok "Predicted mortality risk: 25.00%")
    by (vm_compute; reflexivity).
  split; [exact Hout |].
  exact (make_prediction_outputs_told_apart hospital_model (PyInt 1)
           (PyInt 60) (PyStr "MALE") (PyStr "NO")
           "Predicted mortality risk: 25.00%" Hout).
Defined.

Lemma make_prediction_probability_display_witness :
  preprocess (PyInt 60) (PyStr "MALE") (PyStr "NO") hospital_model =
  (Ok hospital_row, hospital_model) /\
  predict_proba hospital_model hospital_row =
  (Ok [[three_quarters; quarter]], hospital_model) /\
  valid_proba (List.length (rows hospital_row)) [[three_quarters; quarter]] /\
  exists (sign : bool) (n : Z),
    make_prediction (PyInt 1) (PyInt 60) (PyStr "MALE") (PyStr "NO")
      hospital_model =
    (Ok ("Predicted mortality risk: " ++
         sign_str sign ++ fixed_point 2 n ++ "%"), hospital_model) /\
    (0 <= n <= 10000)%Z /\
    (sign = true -> n = 0%Z).
Proof.
  assert (Hvalid :
    valid_proba (List.length (rows hospital_row))
      [[three_quarters; quarter]]).
  { split; [reflexivity |].
    constructor; [| constructor].
    split; [reflexivity |].
    constructor; [reflexivity |]. constructor; [reflexivity |]. constructor. }
  split; [reflexivity |]. split; [reflexivity |]. split; [exact Hvalid |].
  exact (make_prediction_probability_display hospital_model hospital_model
           (PyInt 1) (PyInt 60) (PyStr "MALE") (PyStr "NO") hospital_row
           [[three_quarters; quarter]] eq_refl eq_refl Hvalid).
Defined.
